(** * River Measurement Visualization (src/app.py): a shallow embedding

    The program is one Streamlit script.  Every user interaction re-runs it
    from the top against the session state, so the embedding is a function
    from the widget values and the old session state to the new session state
    and the page that was drawn.

    Numbers entered by the user are Python floats, i.e. IEEE 754 binary64:
    they are Rocq's primitive [float]s here, with the same operations.
    Counts and indices are natural numbers ([st.number_input] with an integer
    [min_value] that is never negative).

    A run ends in one of three ways: it reaches the end of the script, it
    calls [st.rerun()], or an exception leaves it (of Python, of scipy, or of
    Streamlit when a number input is passed a value outside its bounds). *)

From Stdlib Require Import ZArith List Bool Lia Floats.
From stdpp Require Import base option list gmap strings pretty sorting.
Import ListNotations.

Set Warnings "-inexact-float".

(** ** Python: exceptions, indexing, [max] *)

Module Py.

Inductive exn := KeyError | IndexError | ValueError | StreamlitAPIException.

Inductive result (A : Type) :=
| Ok (a : A)
| Raise (e : exn).
Arguments Ok {A} a.
Arguments Raise {A} e.

#[export] Instance result_ret : MRet result := fun A a => Ok a.
#[export] Instance result_bind : MBind result := fun A B f m =>
  match m with
  | Ok a => f a
  | Raise e => Raise e
  end.

(** [for x in xs: ...] with a body that may raise, collecting one value
    per iteration. *)
Fixpoint for_each {A B} (f : A -> result B) (xs : list A) : result (list B) :=
  match xs with
  | [] => Ok []
  | x :: r => y ← f x; ys ← for_each f r; Ok (y :: ys)
  end.

(** [l[j]] *)
Definition getitem {A} (l : list A) (j : nat) : result A :=
  match l !! j with
  | Some a => Ok a
  | None => Raise IndexError
  end.

(** [float(k)] for a non-negative [int] *)
Definition float_of_nat (k : nat) : float :=
  of_uint63 (Uint63.of_Z (Z.of_nat k)).

(** The builtin [max]: the running maximum is replaced by an item only when
    [item > maximum]. *)
Fixpoint max_from (m : float) (l : list float) : float :=
  match l with
  | [] => m
  | x :: r => max_from (if (m <? x)%float then x else m) r
  end.

(** [max(a, b)] *)
Definition max2 (a b : float) : float := max_from a [b].

(** [max(iterable)]: [ValueError] on an empty iterable. *)
Definition max (l : list float) : result float :=
  match l with
  | [] => Raise ValueError
  | x :: r => Ok (max_from x r)
  end.

End Py.
Import Py.

(** ** numpy: [linspace] and [reshape] *)

Module Np.

(** Replace the last element of a list ([y[-1] = stop]). *)
Fixpoint set_last (l : list float) (v : float) : list float :=
  match l with
  | [] => []
  | [_] => [v]
  | x :: r => x :: set_last r v
  end.

(** [np.linspace(start, stop, num)] with [endpoint=True]: numpy computes
    [arange(0, num) * step + start] with [step = (stop - start) / (num - 1)]
    (dividing the indices first when the step underflows to zero) and then
    overwrites the last sample with [stop]. *)
Definition linspace (start stop : float) (num : nat) : list float :=
  let div := (num - 1)%nat in
  let delta := (stop - start)%float in
  let y := map float_of_nat (seq 0 num) in
  let y :=
    if (0 <? div)%nat then
      let step := (delta / float_of_nat div)%float in
      if (step =? 0)%float
      then map (fun v => (v / float_of_nat div * delta)%float) y
      else map (fun v => (v * step)%float) y
    else map (fun v => (v * delta)%float) y in
  let y := map (fun v => (v + start)%float) y in
  if (1 <? num)%nat then set_last y stop else y.

(** Rows of [cols] consecutive elements. *)
Fixpoint chunks (rows cols : nat) (l : list float) : list (list float) :=
  match rows with
  | O => []
  | S r => take cols l :: chunks r cols (drop cols l)
  end.

(** [np.array(l).reshape(rows, cols)]: [ValueError] when the sizes differ. *)
Definition reshape (rows cols : nat) (l : list float) : result (list (list float)) :=
  if (length l =? rows * cols)%nat then Ok (chunks rows cols l)
  else Raise ValueError.

(** [np.array(l).reshape(rows, -1)]: the column count is inferred. *)
Definition reshape_infer (rows : nat) (l : list float) : result (list (list float)) :=
  if ((0 <? rows)%nat && (length l mod rows =? 0)%nat)
  then Ok (chunks rows (length l / rows) l)
  else Raise ValueError.

End Np.

(** ** scipy: [interp1d]

    scipy is a dependency of the program, not part of it.  The model follows
    [scipy.interpolate.interp1d] for the options the program passes
    ([bounds_error=False], [fill_value="extrapolate"], [assume_sorted=False]):
    the abscissae are sorted with a stable sort, carrying the ordinates along;
    ['linear'] evaluates the chord of the bracketing interval, also outside the
    data range; ['cubic'] fits a spline with [make_interp_spline], which
    refuses repeated abscissae with a [ValueError].  The fitted cubic spline
    itself is a parameter of the model. *)

Module Scipy.

Inductive kind := Linear | Cubic.

(** The evaluation function of the cubic spline fitted through sorted
    abscissae [x] and their ordinates [y]. *)
Definition spline_fit := list float -> list float -> float -> float.

(** Stable insertion by abscissa: [p] goes before the first element whose
    abscissa is not smaller. *)
Fixpoint insert_by_x (p : float * float) (l : list (float * float)) : list (float * float) :=
  match l with
  | [] => [p]
  | q :: r => if (fst q <? fst p)%float then q :: insert_by_x p r else p :: q :: r
  end.

(** [ind = np.argsort(x, kind="mergesort"); x = x[ind]; y = y[ind]] *)
Definition sort_by_x (l : list (float * float)) : list (float * float) :=
  foldr insert_by_x [] l.

(** [np.searchsorted(x, v)] (side ['left']) on a sorted array: the number of
    elements smaller than [v]. *)
Fixpoint searchsorted (x : list float) (v : float) : nat :=
  match x with
  | [] => 0
  | a :: r => if (a <? v)%float then S (searchsorted r v) else 0
  end.

(** [a.clip(lo, hi)] *)
Definition clip (a lo hi : nat) : nat := Nat.min (Nat.max a lo) hi.

(** [interp1d._call_linear] at one new abscissa. *)
Definition call_linear (x y : list float) (x_new : float) : float :=
  let x_new_indices := clip (searchsorted x x_new) 1 (length x - 1) in
  let lo := (x_new_indices - 1)%nat in
  let hi := x_new_indices in
  let x_lo := nth lo x nan in
  let x_hi := nth hi x nan in
  let y_lo := nth lo y nan in
  let y_hi := nth hi y nan in
  let slope := ((y_hi - y_lo) / (x_hi - x_lo))%float in
  (slope * (x_new - x_lo) + y_lo)%float.

(** [np.any(x[1:] == x[:-1])] *)
Fixpoint has_duplicates (x : list float) : bool :=
  match x with
  | a :: (b :: _) as r => (b =? a)%float || has_duplicates r
  | _ => false
  end.

(** [interp1d(x, y, kind=kind, bounds_error=False, fill_value="extrapolate")]:
    the interpolator, or the [ValueError] of its constructor. *)
Definition interp1d (spline : spline_fit) (x y : list float) (k : kind)
  : result (float -> float) :=
  if negb (length y =? length x)%nat then Raise ValueError
  else
    let sorted := sort_by_x (zip x y) in
    let xs := sorted.*1 in
    let ys := sorted.*2 in
    match k with
    | Linear => Ok (call_linear xs ys)
    | Cubic =>
        if has_duplicates xs then Raise ValueError
        else if (length xs <? 4)%nat then Raise ValueError
        else Ok (spline xs ys)
    end.

End Scipy.

(** ** The figures handed to plotly

    Only the coordinate data and the names of the traces are kept; colours,
    fonts and lighting are left out.  A text that the program formats from a
    number carries the number. *)

Inductive label :=
| DepthText (depth : float)      (* f"{depth}m" *)
| DepthText1 (depth : float)     (* f"{depth:.1f}m" *)
| WidthText (width : float)      (* f"{width}m" *)
| NameText (name : string).

Inductive trace :=
| Scatter (name : string) (x y : list float)
| Surface (name : string) (x y z : list (list float))
| Scatter3d (mode : string) (x y z : list float) (text : list label).

Record annotation := Annotation {
  ann_x : float;
  ann_y : float;
  ann_text : label }.

Record shape := Line {
  x0 : float; y0 : float;
  x1 : float; y1 : float }.

(** What [fig.add_trace], [fig.add_annotation] and [fig.add_shape] add, with
    the subplot cell for a figure made by [make_subplots]. *)
Inductive item :=
| Trace (t : trace)
| Note (a : annotation)
| Shape (s : shape).

Definition figure := list item.
Definition subplot_figure := list (nat * nat * item).

(** The polyline of a [Scatter] trace: its [x] and [y] arrays paired up. *)
Definition polyline (t : trace) : list (float * float) :=
  match t with
  | Scatter _ x y => zip x y
  | _ => []
  end.

Definition is_surface (t : trace) : bool :=
  match t with Surface _ _ _ _ => true | _ => false end.

(** ** Session state *)

(** One entry of [st.session_state.point_data]. *)
Record site := Site {
  width : float;
  num_measurements : nat;
  point_name : string;
  distances : list float;
  depths : list float }.

Record session := Session {
  num_points : nat;
  point_data : gmap nat site }.

Definition set_point_name (v : string) (s : site) : site :=
  Site (width s) (num_measurements s) v (distances s) (depths s).
Definition set_width (v : float) (s : site) : site :=
  Site v (num_measurements s) (point_name s) (distances s) (depths s).
Definition set_num_measurements (v : nat) (s : site) : site :=
  Site (width s) v (point_name s) (distances s) (depths s).
Definition set_distances (v : list float) (s : site) : site :=
  Site (width s) (num_measurements s) (point_name s) v (depths s).
Definition set_depths (v : list float) (s : site) : site :=
  Site (width s) (num_measurements s) (point_name s) (distances s) v.

(** [st.session_state.point_data[i]] *)
Definition site_at (pd : gmap nat site) (i : nat) : result site :=
  match pd !! i with
  | Some s => Ok s
  | None => Raise KeyError
  end.

(** ** Widgets

    A widget returns what the user entered under its key, or the [value] the
    script passes when nothing was entered. *)
Record widgets := Widgets {
  w_num_points : option nat;
  w_name : nat -> option string;
  w_width : nat -> option float;
  w_num : nat -> option nat;
  w_dist : nat -> nat -> option float;
  w_depth : nat -> nat -> option float }.

Definition widget {A} (entered : option A) (value : A) : A :=
  default value entered.

(** [st.number_input(label, min_value, max_value, value, step, key)].
    Before it draws the widget, Streamlit checks the [value] it was passed:
    a [value] below [min_value] or above [max_value] is refused with a
    [StreamlitAPIException], and so is a float argument beyond the largest
    finite double (the numbers the front end can hold).  The comparisons are
    Python's, so none of them holds of a NaN.  Otherwise the widget returns
    what was entered, or [value]. *)
Module St.

Definition max_float : float := 0x1.fffffffffffffp+1023%float.

Definition js_number (x : float) : bool :=
  negb (x <? - max_float)%float && negb (max_float <? x)%float.

Definition float_in_bounds (min_value : float) (max_value : option float) (value : float)
  : bool :=
  negb (value <? min_value)%float
  && match max_value with
     | Some hi => negb (hi <? value)%float && js_number hi
     | None => true
     end
  && js_number value.

Definition number_input (entered : option float)
    (min_value : float) (max_value : option float) (value : float) : result float :=
  if float_in_bounds min_value max_value value
  then Ok (widget entered value)
  else Raise StreamlitAPIException.

Definition int_in_bounds (min_value max_value value : nat) : bool :=
  negb (value <? min_value)%nat && negb (max_value <? value)%nat.

Definition number_input_int (entered : option nat)
    (min_value max_value value : nat) : result nat :=
  if int_in_bounds min_value max_value value
  then Ok (widget entered value)
  else Raise StreamlitAPIException.

End St.

(** f"Site {i+1}" *)
Definition default_name (i : nat) : string := "Site " +:+ pretty (i + 1)%nat.

(** ** The number of sites (lines 19-33)

    [num_points'] is what the number input of lines 19-20 returned; the
    second component tells whether [st.rerun()] was called. *)
Definition num_points_block (num_points' : nat) (st : session) : session * bool :=
  if negb (num_points' =? num_points st)%nat then
    let old_num_points := num_points st in
    let st := Session num_points' (point_data st) in
    if negb (old_num_points =? num_points')%nat
    then (Session (num_points st) ∅, true)
    else (st, false)
  else (st, false).

(** ** One site tab (lines 42-237) *)

(** Lines 45-52. *)
Definition init_site (pd : gmap nat site) (i : nat) : gmap nat site :=
  match pd !! i with
  | Some _ => pd
  | None => <[i := Site 1.0 3 (default_name i) [] []]> pd
  end.

(** Lines 76-90: the width and the measurement count returned by the widgets
    are written back; the arrays are reset only when the count changed, and
    then the script is re-run. *)
Definition update_block (pd : gmap nat site) (i : nat)
    (width' : float) (num_measurements' : nat) : result (gmap nat site * bool) :=
  s ← site_at pd i;
  let width_changed := negb (width' =? width s)%float in
  let measurements_changed := negb (num_measurements' =? num_measurements s)%nat in
  if width_changed || measurements_changed then
    let s := set_num_measurements num_measurements' (set_width width' s) in
    if measurements_changed
    then Ok (<[i := set_depths [] (set_distances [] s)]> pd, true)
    else Ok (<[i := s]> pd, false)
  else Ok (pd, false).

(** Lines 98-114 and 118-130: one number input per measurement, pre-filled
    with the stored value when there is one.  The distance inputs are bounded
    by [0.0] and the width just entered, the depth inputs by [0.0] and
    [10.0]; the first input whose pre-filled value is out of its bounds
    raises. *)
Definition distance_default (s : site) (width' : float) (num_measurements' : nat)
    (j : nat) : float :=
  let default_distances := Np.linspace 0 width' num_measurements' in
  let default_val := nth j default_distances nan in
  if (j <? length (distances s))%nat
  then nth j (distances s) nan else default_val.

Definition distance_inputs (w : widgets) (i : nat) (s : site)
    (width' : float) (num_measurements' : nat) : result (list float) :=
  for_each (fun j =>
              St.number_input (w_dist w i j) 0 (Some width')
                (distance_default s width' num_measurements' j))
           (seq 0 num_measurements').

Definition depth_default (s : site) (j : nat) : float :=
  let default_val := 0%float in
  if (j <? length (depths s))%nat
  then nth j (depths s) nan else default_val.

Definition depth_inputs (w : widgets) (i : nat) (s : site)
    (num_measurements' : nat) : result (list float) :=
  for_each (fun j => St.number_input (w_depth w i j) 0 (Some 10%float) (depth_default s j))
           (seq 0 num_measurements').

(** Lines 139-225: the cross-section preview of one site. *)
Definition cross_section_preview (width' : float) (distances' depths' : list float)
  : figure :=
  [ Trace (Scatter "Left Bank" [(-0.5)%float; 0%float] [0.5%float; 0%float]);
    Trace (Scatter "Right Bank" [width'; (width' + 0.5)%float] [0%float; 0.5%float]);
    Trace (Scatter "River Bed" distances' (map (fun d => (- d)%float) depths'));
    Trace (Scatter "Water Surface" [0%float; width'] [0%float; 0%float]) ]
  ++ map (fun '(dist, depth) =>
            Note (Annotation dist (- depth - 0.1)%float (DepthText depth)))
         (zip distances' depths')
  ++ [ Shape (Line 0 0.2 width' 0.2);
       Shape (Line 0 0.2 0 0.1);
       Shape (Line width' 0.2 width' 0.1);
       Note (Annotation (width' / 2)%float 0.3%float (WidthText width')) ].

(** What one tab did: it drew its preview, or it asked for a re-run. *)
Inductive tab_outcome :=
| Drawn (pd : gmap nat site) (preview : option figure)
| Rerun (pd : gmap nat site).

Definition site_tab (w : widgets) (i : nat) (pd : gmap nat site) : result tab_outcome :=
  let pd := init_site pd i in
  s ← site_at pd i;
  let point_name' := widget (w_name w i) (point_name s) in
  let pd := <[i := set_point_name point_name' s]> pd in
  s ← site_at pd i;
  width' ← St.number_input (w_width w i) 0.1 None (width s);
  num_measurements' ← St.number_input_int (w_num w i) 2 20 (num_measurements s);
  r ← update_block pd i width' num_measurements';
  let '(pd, rerun) := (r : gmap nat site * bool) in
  if rerun then Ok (Rerun pd)
  else if (0 <? num_measurements')%nat then
    s ← site_at pd i;
    distances' ← distance_inputs w i s width' num_measurements';
    depths' ← depth_inputs w i s num_measurements';
    let pd := <[i := set_depths depths' (set_distances distances' s)]> pd in
    Ok (Drawn pd (Some (cross_section_preview width' distances' depths')))
  else Ok (Drawn pd None).

(** The loop over the site tabs (line 40): a re-run ends the script. *)
Fixpoint site_tabs (w : widgets) (tabs : list nat) (pd : gmap nat site)
  : result (gmap nat site * option (list (option figure))) :=
  match tabs with
  | [] => Ok (pd, Some [])
  | i :: r =>
      o ← site_tab w i pd;
      match o with
      | Rerun pd => Ok (pd, None)
      | Drawn pd fig =>
          rest ← site_tabs w r pd;
          let '(pd, figs) := (rest : gmap nat site * option (list (option figure))) in
          Ok (pd, option_map (cons fig) figs)
      end
  end.

(** ** The visualization tab (lines 240-742) *)

(** One row of [table_data]. *)
Record row := Row {
  site_number : nat;
  site_name : string;
  point_number : nat;
  distance : float;
  depth : float }.

(** What the visualization tab shows once the gate is passed. *)
Record composite := Composite {
  river_profile : figure;
  cross_sections : subplot_figure;
  subplot_titles : list string;
  table_data : list row }.

Inductive view :=
| Info (message : string)
| Plots (c : composite).

Definition placeholder : string :=
  "Please enter measurement data for all points to see the visualization.".

Definition num_interp_points : nat := 30.
Definition bank_height : float := 0.5.
Definition n_bottom_points : nat := 10.

(** Three coordinate lists that grow together ([left_x], [left_y], [left_z]
    and the like). *)
Definition coords : Type := list float * list float * list float.

Definition extend (c : coords) (xs ys zs : list float) : coords :=
  let '(cx, cy, cz) := c in (cx ++ xs, cy ++ ys, cz ++ zs).

Section Visualization.

(** The cubic spline fitted by scipy. *)
Variable make_interp_spline : Scipy.spline_fit.

(** Line 243: [all(len(point_data[i]["depths"]) > 0 for i in range(num_points))];
    [all] stops at the first site without depths. *)
Fixpoint all_depths_recorded (pd : gmap nat site) (sites : list nat) : result bool :=
  match sites with
  | [] => Ok true
  | i :: r =>
      s ← site_at pd i;
      if (0 <? length (depths s))%nat then all_depths_recorded pd r else Ok false
  end.

(** Lines 271-287: one site resampled at [num_interp_points] positions across
    its width; the result is [(x_interp, z_interp)]. *)
Definition interpolate_site (point : site) : result (list float * list float) :=
  let point_width := width point in
  let x_vals := distances point in
  let depths' := depths point in
  let x_interp := Np.linspace 0 point_width num_interp_points in
  if (2 <=? length x_vals)%nat then
    let kind := if (3 <? length x_vals)%nat then Scipy.Cubic else Scipy.Linear in
    interpolator ← Scipy.interp1d make_interp_spline x_vals depths' kind;
    Ok (x_interp, map (fun x => (- interpolator x)%float) x_interp)
  else
    d0 ← getitem depths' 0;
    Ok (x_interp, repeat (- d0)%float num_interp_points).

(** Lines 267-321: the river-bed surface, one row per site. *)
Definition river_bed (pd : gmap nat site) (all_sites : nat) : result trace :=
  rows ← for_each (fun i =>
            point ← site_at pd i;
            xz ← interpolate_site point;
            Ok (xz.1, repeat (float_of_nat i) num_interp_points, xz.2))
          (seq 0 all_sites);
  Ok (Surface "River Bed" (rows.*1.*1) (rows.*1.*2) (rows.*2)).

(** Lines 342-369: one cross-axis profile of the left bank. *)
Definition left_profile (i : nat) (curr_width next_width : float)
    (bank_extension max_depth_section : float) (left : coords) (y_frac : float) : coords :=
  let y_pos := (float_of_nat i + y_frac)%float in
  let left := extend left [0%float] [y_pos] [0%float] in
  let left := extend left
                [((- bank_extension) / 2)%float; (- bank_extension)%float]
                [y_pos; y_pos]
                [(bank_height * 0.7)%float; bank_height] in
  let left := extend left [(- bank_extension)%float] [y_pos]
                [((- max_depth_section) * 1.2)%float] in
  let left := extend left [((- bank_extension) / 2)%float] [y_pos]
                [((- max_depth_section) * 1.2)%float] in
  extend left [0%float] [y_pos] [((- max_depth_section) * 1.2)%float].

(** Lines 394-421: one cross-axis profile of the right bank. *)
Definition right_profile (i : nat) (curr_width next_width : float)
    (bank_extension max_depth_section : float) (right : coords) (y_frac : float) : coords :=
  let y_pos := (float_of_nat i + y_frac)%float in
  let width_at_y := (curr_width + (next_width - curr_width) * y_frac)%float in
  let right := extend right [width_at_y] [y_pos] [0%float] in
  let right := extend right
                 [(width_at_y + bank_extension / 2)%float; (width_at_y + bank_extension)%float]
                 [y_pos; y_pos]
                 [(bank_height * 0.7)%float; bank_height] in
  let right := extend right [(width_at_y + bank_extension)%float] [y_pos]
                 [((- max_depth_section) * 1.2)%float] in
  let right := extend right [(width_at_y + bank_extension / 2)%float] [y_pos]
                 [((- max_depth_section) * 1.2)%float] in
  extend right [width_at_y] [y_pos] [((- max_depth_section) * 1.2)%float].

(** Lines 443-455: one row of the strip under the river. *)
Definition bottom_profile (i : nat) (curr_width next_width : float)
    (max_depth_section : float) (bottom : coords) (y_frac : float) : coords :=
  let y_pos := (float_of_nat i + y_frac)%float in
  let width_at_y := (curr_width + (next_width - curr_width) * y_frac)%float in
  fold_left (fun bottom j =>
               let x_frac := (float_of_nat j / float_of_nat (n_bottom_points - 1))%float in
               let x_pos := (x_frac * width_at_y)%float in
               extend bottom [x_pos] [y_pos] [((- max_depth_section) * 1.2)%float])
            (seq 0 n_bottom_points) bottom.

(** [np.array(c_x).reshape(...)] for the three coordinate lists. *)
Definition surface (name : string) (reshape : list float -> result (list (list float)))
    (c : coords) : result trace :=
  let '(cx, cy, cz) := c in
  X ← reshape cx; Y ← reshape cy; Z ← reshape cz;
  Ok (Surface name X Y Z).

(** Lines 330-334. *)
Definition max_depth_section (pd : gmap nat site) (i : nat) : result float :=
  curr ← site_at pd i;
  next ← site_at pd (i + 1);
  mc ← Py.max (depths curr);
  mn ← Py.max (depths next);
  Ok (max2 mc mn).

(** Lines 336-387: the left bank between sites [i] and [i + 1]. *)
Definition left_bank (pd : gmap nat site) (bank_extension : float) (i : nat) : result trace :=
  curr ← site_at pd i;
  next ← site_at pd (i + 1);
  mds ← max_depth_section pd i;
  let left := fold_left (left_profile i (width curr) (width next) bank_extension mds)
                [0%float; 0.5%float; 1%float] ([], [], []) in
  surface "Left Bank" (Np.reshape 3 6) left.

(** Lines 389-436. *)
Definition right_bank (pd : gmap nat site) (bank_extension : float) (i : nat) : result trace :=
  curr ← site_at pd i;
  next ← site_at pd (i + 1);
  mds ← max_depth_section pd i;
  let right := fold_left (right_profile i (width curr) (width next) bank_extension mds)
                 [0%float; 0.5%float; 1%float] ([], [], []) in
  surface "Right Bank" (Np.reshape 3 6) right.

(** Lines 438-470. *)
Definition river_bottom (pd : gmap nat site) (i : nat) : result trace :=
  curr ← site_at pd i;
  next ← site_at pd (i + 1);
  mds ← max_depth_section pd i;
  let bottom := fold_left (bottom_profile i (width curr) (width next) mds)
                  [0%float; 1%float] ([], [], []) in
  surface "River Bottom" (Np.reshape_infer 2) bottom.

(** Lines 328-470: the ground between consecutive sites. *)
Definition ground (pd : gmap nat site) (bank_extension : float) (all_sites : nat)
  : result (list trace) :=
  sections ← for_each (fun i =>
                l ← left_bank pd bank_extension i;
                r ← right_bank pd bank_extension i;
                b ← river_bottom pd i;
                Ok [l; r; b])
              (seq 0 (all_sites - 1));
  Ok (concat sections).

(** Lines 472-499: the water surface follows each site's own width. *)
Definition water_surface (pd : gmap nat site) (all_sites : nat) : result trace :=
  rows ← for_each (fun i =>
            point ← site_at pd i;
            Ok (Np.linspace 0 (width point) num_interp_points,
                repeat (float_of_nat i) num_interp_points,
                repeat 0%float num_interp_points))
          (seq 0 all_sites);
  Ok (Surface "Water Surface" (rows.*1.*1) (rows.*1.*2) (rows.*2)).

(** Lines 262-499: everything under [if all_sites >= 2]. *)
Definition surfaces (pd : gmap nat site) (bank_extension : float) (all_sites : nat)
  : result (list trace) :=
  if (2 <=? all_sites)%nat then
    bed ← river_bed pd all_sites;
    g ← ground pd bank_extension all_sites;
    water ← water_surface pd all_sites;
    Ok (bed :: g ++ [water])
  else Ok [].

(** Lines 501-521: one marker per measurement point. *)
Definition markers (pd : gmap nat site) (all_sites : nat) : result (list trace) :=
  per_site ← for_each (fun i =>
                point ← site_at pd i;
                Ok (map (fun '(dist, depth) =>
                           Scatter3d "markers+text" [dist] [float_of_nat i]
                             [(- depth)%float] [DepthText1 depth])
                        (zip (distances point) (depths point))))
              (seq 0 all_sites);
  Ok (concat per_site).

(** Lines 523-536: the site names beyond the right bank. *)
Definition site_labels (pd : gmap nat site) (max_width bank_extension : float)
    (all_sites : nat) : result (list trace) :=
  for_each (fun i =>
              point ← site_at pd i;
              Ok (Scatter3d "text" [(max_width + bank_extension + 0.5)%float]
                    [float_of_nat i] [(bank_height / 2)%float]
                    [NameText (point_name point)]))
           (seq 0 all_sites).

(** Lines 582-692: one cell of the "All Cross-Sections" figure. *)
Definition cross_section_cell (i : nat) (point : site) : subplot_figure :=
  let row := (i / 2 + 1)%nat in
  let col := (i mod 2 + 1)%nat in
  let width' := width point in
  map (fun it => (row, col, it))
    ([ Trace (Scatter "Left Bank" [(-0.5)%float; 0%float] [0.5%float; 0%float]);
       Trace (Scatter "Right Bank" [width'; (width' + 0.5)%float] [0%float; 0.5%float]);
       Trace (Scatter (point_name point) (distances point)
                (map (fun d => (- d)%float) (depths point)));
       Trace (Scatter "Water Surface" [0%float; width point] [0%float; 0%float]) ]
     ++ map (fun '(dist, depth) =>
               Note (Annotation dist (- depth - 0.1)%float (DepthText depth)))
            (zip (distances point) (depths point))
     ++ [ Shape (Line 0 0.2 width' 0.2);
          Shape (Line 0 0.2 0 0.1);
          Shape (Line width' 0.2 width' 0.1);
          Note (Annotation (width' / 2)%float 0.3%float (WidthText width')) ]).

Definition all_cross_sections (pd : gmap nat site) (n : nat) : result subplot_figure :=
  cells ← for_each (fun i => point ← site_at pd i; Ok (cross_section_cell i point))
             (seq 0 n);
  Ok (concat cells).

(** Lines 717-727. *)
Definition table_rows (pd : gmap nat site) (i : nat) : result (list row) :=
  point ← site_at pd i;
  for_each (fun j =>
              dist ← getitem (distances point) j;
              dep ← getitem (depths point) j;
              Ok (Row (i + 1) (point_name point) (j + 1) dist dep))
           (seq 0 (length (distances point))).

Definition build_table (pd : gmap nat site) (n : nat) : result (list row) :=
  per_site ← for_each (table_rows pd) (seq 0 n);
  Ok (concat per_site).

(** Lines 244-740: the branch taken when every site has depths. *)
Definition assemble (st : session) : result composite :=
  let pd := point_data st in
  let n := num_points st in
  widths ← for_each (fun i => s ← site_at pd i; Ok (width s)) (seq 0 n);
  max_width ← Py.max widths;
  deepest ← for_each (fun i => s ← site_at pd i; Py.max (depths s)) (seq 0 n);
  max_depth_overall ← Py.max deepest;
  let all_sites := n in
  let bank_extension := (max_width * 0.5)%float in
  s ← surfaces pd bank_extension all_sites;
  m ← markers pd all_sites;
  l ← site_labels pd max_width bank_extension all_sites;
  titles ← for_each (fun i => s ← site_at pd i; Ok (point_name s)) (seq 0 n);
  cells ← all_cross_sections pd n;
  table ← build_table pd n;
  Ok (Composite (map Trace (s ++ m ++ l)) cells titles table).

(** Lines 243 and 741-742: the gate in front of the visualization. *)
Definition visualization_tab (st : session) : result view :=
  recorded ← all_depths_recorded (point_data st) (seq 0 (num_points st));
  if (recorded : bool) then c ← assemble st; Ok (Plots c)
  else Ok (Info placeholder).

(** ** One run of the script *)

Inductive page :=
| Rerunning
| NoTabs
| Tabs (previews : list (option figure)) (visualization : view).

Definition script (w : widgets) (st : session) : result (session * page) :=
  num_points' ← St.number_input_int (w_num_points w) 0 20 (num_points st);
  let '(st, rerun) := num_points_block num_points' st in
  if (rerun : bool) then Ok (st, Rerunning)
  else if (0 <? num_points st)%nat then
    r ← site_tabs w (seq 0 (num_points st)) (point_data st);
    match r : gmap nat site * option (list (option figure)) with
    | (pd, None) => Ok (Session (num_points st) pd, Rerunning)
    | (pd, Some previews) =>
        let st := Session (num_points st) pd in
        v ← visualization_tab st;
        Ok (st, Tabs previews v)
    end
  else Ok (st, NoTabs).

End Visualization.

(** ** Vocabulary of the statements *)

(** The session state holds the sites [ss], in this order, under the keys
    [0 .. length ss - 1]. *)
Definition stored (pd : gmap nat site) (ss : list site) : Prop :=
  ∀ i s, ss !! i = Some s → pd !! i = Some s.

(** The rows of the table that belong to site [i]. *)
Definition site_rows (i : nat) (s : site) : list row :=
  map (fun j => Row (i + 1) (point_name s) (j + 1)
                  (nth j (distances s) nan) (nth j (depths s) nan))
      (seq 0 (length (distances s))).

(** Site-ascending, then point-ascending. *)
Definition row_before (r1 r2 : row) : Prop :=
  site_number r1 < site_number r2
  ∨ (site_number r1 = site_number r2 ∧ point_number r1 < point_number r2).

(** A spline to run the model with where the spline does not matter. *)
Definition no_spline : Scipy.spline_fit := fun _ _ _ => nan.

(** No widget was touched. *)
Definition untouched : widgets :=
  Widgets None (fun _ => None) (fun _ => None) (fun _ => None)
    (fun _ _ => None) (fun _ _ => None).

(** Every site of the study has at least one depth recorded. *)
Definition every_site_has_depths (st : session) : Prop :=
  ∀ i, i < num_points st → ∃ s, point_data st !! i = Some s ∧ depths s ≠ [].

(** The run of the script with widgets [w] from the state [st] gets as far
    as the visualization tab: the number input accepts the stored number of
    sites, the number of sites is unchanged and positive, and every site tab
    was drawn without [st.rerun()] or an exception.  [st'] is the session
    state the visualization tab then reads, [previews] what the tabs drew. *)
Definition reaches_visualization (w : widgets) (st st' : session)
    (previews : list (option figure)) : Prop :=
  ∃ n st1 pd,
    St.number_input_int (w_num_points w) 0 20 (num_points st) = Ok n
    ∧ num_points_block n st = (st1, false)
    ∧ 0 < num_points st1
    ∧ site_tabs w (seq 0 (num_points st1)) (point_data st1) = Ok (pd, Some previews)
    ∧ st' = Session (num_points st1) pd.

(** The marker of one measurement point [p = (dist, depth)] of site [i]. *)
Definition marker (i : nat) (p : float * float) : trace :=
  Scatter3d "markers+text" [p.1] [float_of_nat i] [(- p.2)%float] [DepthText1 p.2].

(** Column [j] of a grid, row by row. *)
Definition column (j : nat) (grid : list (list float)) : list (option float) :=
  map (fun r => r !! j) grid.

Arguments visualization_tab : simpl never.
Arguments assemble : simpl never.
Arguments build_table : simpl never.
Arguments table_rows : simpl never.

(** No two of the floats are equal ([==]). *)
Fixpoint pairwise_distinct (l : list float) : bool :=
  match l with
  | [] => true
  | a :: r => forallb (fun b => negb (a =? b)%float) r && pairwise_distinct r
  end.

Definition distinct (l : list float) : Prop :=
  ∀ i j a b, l !! i = Some a → l !! j = Some b → i ≠ j → (a =? b)%float = false.

(** Classes of floats, read off the IEEE 754 value [Prim2SF x]: a zero or a
    finite non-zero float; an infinite or finite non-zero float; a finite
    float other than [-0.0]. *)
Definition finiteb (x : float) : bool :=
  match Prim2SF x with S754_zero _ | S754_finite _ _ _ => true | _ => false end.

Definition nonzero_number (x : float) : bool :=
  match Prim2SF x with S754_infinity _ | S754_finite _ _ _ => true | _ => false end.

Definition regular_depth (d : float) : bool :=
  match Prim2SF d with
  | S754_zero s => negb s
  | S754_finite _ _ _ => true
  | _ => false
  end.

(** The shape of one resampled site of width [w]: 30 positions, 30
    elevations; position [k] is [k] steps of [w / 29] from 0 (numpy divides
    [k] first when the step underflows to zero), the first one is 0 when
    [w] and the step are finite, and the last one is [w]. *)
Definition resampled (w : float) (xs zs : list float) : Prop :=
  length xs = 30 ∧ length zs = 30
  ∧ (∀ k, k < 29 →
       xs !! k = Some (if (w / 29 =? 0)%float
                       then (float_of_nat k / 29 * w + 0)%float
                       else (float_of_nat k * (w / 29) + 0)%float))
  ∧ (finiteb w = true → finiteb (w / 29) = true → xs !! 0 = Some 0%float)
  ∧ xs !! 29 = Some w.

(** What the form promises about a site: at least one depth, as many
    depths as distances, every distance within [[0, width]]. *)
Definition valid_site (s : site) : bool :=
  (0 <? length (depths s))%nat
  && (length (distances s) =? length (depths s))%nat
  && forallb (fun d => (0 <=? d)%float && (d <=? width s)%float) (distances s).

(** The ends [(x_lo, x_hi)] of the interval of the sorted abscissae [x] that
    [interp1d] uses for [x_new]. *)
Definition bracket (x : list float) (x_new : float) : float * float :=
  let hi := Scipy.clip (Scipy.searchsorted x x_new) 1 (length x - 1) in
  (nth (hi - 1) x nan, nth hi x nan).

(** At each of the resampled positions of the site, the interval used has
    two different ends ([x_hi - x_lo] is neither zero nor NaN) and the offset
    [x_new - x_lo] is finite. *)
Definition well_conditioned (s : site) : bool :=
  let x := (Scipy.sort_by_x (zip (distances s) (depths s))).*1 in
  forallb (fun x_new =>
             let '(x_lo, x_hi) := bracket x x_new in
             nonzero_number (x_hi - x_lo) && finiteb (x_new - x_lo))
          (Np.linspace 0 (width s) num_interp_points).

(** A site the resampling accepts: at least one depth, as many depths as
    distances and, with more than three points, no two equal distances. *)
Definition interpolable (s : site) : Prop :=
  depths s ≠ [] ∧ length (depths s) = length (distances s)
  ∧ (length (distances s) ≤ 3 ∨ pairwise_distinct (distances s) = true).


(** A site whose arrays were collected from the widgets: one distance and
    one depth per measurement, and at least one measurement. *)
Definition collected (s : site) : Prop :=
  0 < num_measurements s
  ∧ length (distances s) = num_measurements s
  ∧ length (depths s) = num_measurements s.

(** A site with as many distances as depths; one that has a depth as well;
    one whose more than three distances are not pairwise distinct. *)
Definition matched (s : site) : Prop := length (distances s) = length (depths s).

Definition recorded (s : site) : Prop :=
  depths s ≠ [] ∧ length (distances s) = length (depths s).

Definition repeated (s : site) : Prop :=
  3 < length (distances s) ∧ pairwise_distinct (distances s) = false.

(** The preview a tab draws from what is stored for site [i]. *)
Definition stored_preview (pd : gmap nat site) (i : nat) : option figure :=
  s ← pd !! i;
  Some (cross_section_preview (width s) (distances s) (depths s)).

(** The state a tab leaves, and whether it asked for a re-run. *)
Definition outcome_state (o : tab_outcome) : gmap nat site :=
  match o with Drawn pd _ => pd | Rerun pd => pd end.

Definition is_rerun (o : tab_outcome) : bool :=
  match o with Rerun _ => true | Drawn _ _ => false end.

(** The site the tab starts from: the stored one, or the one lines 45-52
    create. *)
Definition site_or_default (pd : gmap nat site) (i : nat) : site :=
  default (Site 1.0 3 (default_name i) [] []) (pd !! i).

(** The site a new tab holds once its inputs were drawn with their default
    values: [linspace(0, 1.0, 3)] and three zero depths. *)
Definition default_site (i : nat) : site :=
  Site 1 3 (default_name i) [0; 0.5; 1]%float [0; 0; 0]%float.

(** The user entered the number of sites and nothing else. *)
Definition only_count (n : nat) : widgets :=
  Widgets (Some n) (fun _ => None) (fun _ => None) (fun _ => None)
    (fun _ _ => None) (fun _ _ => None).

(** [st.rerun()] stops the script and runs it again from the top with the
    same widget values and the session state as it is then; [rerun_loop]
    follows at most [fuel] such re-runs. *)
Fixpoint rerun_loop (fuel : nat) (spline : Scipy.spline_fit) (w : widgets) (st : session)
  : result (session * page) :=
  match script spline w st with
  | Ok (st', Rerunning) =>
      match fuel with
      | O => Ok (st', Rerunning)
      | S fuel => rerun_loop fuel spline w st'
      end
  | r => r
  end.

(** The count widget of site [i] agrees with what is stored, and the widget
    for the number of sites agrees with the session. *)
Definition stable (w : widgets) (pd : gmap nat site) (i : nat) : Prop :=
  ∃ s, pd !! i = Some s ∧ widget (w_num w i) (num_measurements s) = num_measurements s.

Definition settled (w : widgets) (st : session) : Prop :=
  widget (w_num_points w) (num_points st) = num_points st.

(** Every value the tab of site [i] passes to a number input lies within
    the bounds of that input: the stored width and count and, when the count
    entered is the stored one (no re-run), the pre-filled distances and
    depths. *)
Definition tab_in_bounds (w : widgets) (i : nat) (pd : gmap nat site) : bool :=
  let s0 := site_or_default pd i in
  let width' := widget (w_width w i) (width s0) in
  let n' := widget (w_num w i) (num_measurements s0) in
  St.float_in_bounds 0.1 None (width s0)
  && St.int_in_bounds 2 20 (num_measurements s0)
  && (negb (n' =? num_measurements s0)%nat
      || forallb (fun j => St.float_in_bounds 0 (Some width')
                             (distance_default s0 width' n' j)) (seq 0 n')
         && forallb (fun j => St.float_in_bounds 0 (Some 10%float) (depth_default s0 j))
              (seq 0 n')).

(** A stored site that the form can show again as it is: its width and count
    within the bounds of their inputs, every distance within [[0, width]],
    every depth within [[0, 10]]. *)
Definition within_form_bounds (s : site) : bool :=
  St.float_in_bounds 0.1 None (width s)
  && St.int_in_bounds 2 20 (num_measurements s)
  && forallb (St.float_in_bounds 0 (Some (width s))) (distances s)
  && forallb (St.float_in_bounds 0 (Some 10%float)) (depths s).

(** The reflection of the abscissa [x] in a channel of width [w]. *)
Definition mirror (w x : float) : float := (w - x)%float.

(** The markers of site [i] and its name label beyond the right bank. *)
Definition site_markers (i : nat) (s : site) : list trace :=
  map (marker i) (zip (distances s) (depths s)).

Definition site_label (max_width : float) (i : nat) (s : site) : trace :=
  Scatter3d "text" [(max_width + max_width * 0.5 + 0.5)%float] [float_of_nat i]
    [(bank_height / 2)%float] [NameText (point_name s)].

(** Line 578: the rows of the grid handed to [make_subplots(rows=rows, cols=2)]. *)
Definition subplot_rows (n : nat) : nat := (n + 1) / 2.

(** Lines 729-740: [if table_data:] shows the table and the download button. *)
Definition download_offered (c : composite) : bool :=
  match table_data c with [] => false | _ => true end.

(** * Properties *)

(** ** Loops and binds *)

Lemma bind_Ok {A B} (m : result A) (f : A → result B) (b : B) :
  m ≫= f = Ok b → ∃ a, m = Ok a ∧ f a = Ok b.
Proof. destruct m as [a|e]; [by exists a|intros; discriminate]. Qed.


Lemma for_each_length {A B} (f : A → result B) (xs : list A) (ys : list B) :
  for_each f xs = Ok ys → length ys = length xs.
Proof.
  revert ys. induction xs as [|a xs IH]; intros ys Hf; [by injection Hf as <-|].
  cbn in Hf. apply bind_Ok in Hf as (y & _ & Hf).
  apply bind_Ok in Hf as (ys' & Hys & [= <-]). cbn. f_equal. by apply IH.
Qed.

Lemma for_each_seq {B} (f : nat → result B) (g : nat → B) (k n : nat) :
  (∀ j, k ≤ j < k + n → f j = Ok (g j)) →
  for_each f (seq k n) = Ok (map g (seq k n)).
Proof.
  revert k. induction n as [|n IH]; intros k Hf; [done|].
  cbn. rewrite Hf by lia. cbn. rewrite IH; [done|]. intros j Hj. apply Hf. lia.
Qed.

Lemma for_each_sites {B} (pd : gmap nat site) (ss : list site)
    (f : nat → result B) (g : nat → site → B) :
  stored pd ss →
  (∀ i s, pd !! i = Some s → ss !! i = Some s → f i = Ok (g i s)) →
  for_each f (seq 0 (length ss)) = Ok (imap g ss).
Proof.
  intros Hst Hf.
  rewrite (for_each_seq f
             (fun i => match ss !! i with
                       | Some s => g i s
                       | None => g i (Site 0 0 EmptyString [] [])
                       end)).
  - f_equal. apply list_eq. intros i. rewrite list_lookup_imap, list_lookup_fmap.
    destruct (ss !! i) as [s|] eqn:Hi; cbn.
    + rewrite lookup_seq_lt by (by eapply lookup_lt_Some). cbn. by rewrite Hi.
    + rewrite lookup_seq_ge; [done|]. by apply lookup_ge_None.
  - intros i [_ Hi]. cbn in Hi. destruct (lookup_lt_is_Some_2 ss i Hi) as [s Hs].
    rewrite Hs. apply Hf; [by apply Hst|done].
Qed.

Lemma getitem_nth (l : list float) (j : nat) :
  j < length l → getitem l j = Ok (nth j l nan).
Proof.
  intros Hj. unfold getitem. destruct (lookup_lt_is_Some_2 l j Hj) as [a Ha].
  rewrite Ha. f_equal. symmetry. by apply nth_lookup_Some.
Qed.

(** ** The river-bed polyline of a cross-section *)

Lemma zip_neg_nth (ds zs : list float) :
  length ds = length zs →
  zip ds (map (fun d => (- d)%float) zs)
  = map (fun j => (nth j ds nan, (- nth j zs nan)%float)) (seq 0 (length ds)).
Proof.
  revert zs. induction ds as [|d ds IH]; intros [|z zs] Hlen; simplify_eq/=; try done.
  f_equal. rewrite IH by done. rewrite <- seq_shift, map_map. done.
Qed.

(** ** Number inputs *)

Lemma number_input_Ok (entered : option float) (lo : float) (hi : option float)
    (value x : float) :
  St.number_input entered lo hi value = Ok x →
  St.float_in_bounds lo hi value = true ∧ x = widget entered value.
Proof. unfold St.number_input. destruct (St.float_in_bounds _ _ _); [by intros [= <-]|done]. Qed.

Lemma number_input_int_Ok (entered : option nat) (lo hi value x : nat) :
  St.number_input_int entered lo hi value = Ok x →
  St.int_in_bounds lo hi value = true ∧ x = widget entered value.
Proof. unfold St.number_input_int. destruct (St.int_in_bounds _ _ _); [by intros [= <-]|done]. Qed.

Lemma number_input_Raise (entered : option float) (lo : float) (hi : option float)
    (value : float) (e : exn) :
  St.number_input entered lo hi value = Raise e →
  St.float_in_bounds lo hi value = false ∧ e = StreamlitAPIException.
Proof. unfold St.number_input. destruct (St.float_in_bounds _ _ _); [done|by intros [= <-]]. Qed.

Lemma number_input_int_Raise (entered : option nat) (lo hi value : nat) (e : exn) :
  St.number_input_int entered lo hi value = Raise e →
  St.int_in_bounds lo hi value = false ∧ e = StreamlitAPIException.
Proof. unfold St.number_input_int. destruct (St.int_in_bounds _ _ _); [done|by intros [= <-]]. Qed.

Lemma distance_inputs_length w i s width' n ds :
  distance_inputs w i s width' n = Ok ds → length ds = n.
Proof. intros H. apply for_each_length in H. by rewrite length_seq in H. Qed.

Lemma depth_inputs_length w i s n zs :
  depth_inputs w i s n = Ok zs → length zs = n.
Proof. intros H. apply for_each_length in H. by rewrite length_seq in H. Qed.

(** The preview a site tab draws is the cross-section of the arrays it has
    just stored, and these have one entry per measurement each. *)
Lemma update_block_site (pd pd' : gmap nat site) (i : nat) (w : float) (n : nat) :
  update_block pd i w n = Ok (pd', false) →
  ∃ s, pd' !! i = Some s ∧ num_measurements s = n.
Proof.
  unfold update_block, site_at. destruct (pd !! i) as [s|] eqn:Hs; [|done]. cbn.
  destruct (negb (w =? width s)%float) eqn:Hw, (negb (n =? num_measurements s)) eqn:Hn;
    cbn; intros [= <-]; try done.
  - eexists. split; [by rewrite lookup_insert_eq|done].
  - exists s. split; [done|]. apply negb_false_iff, Nat.eqb_eq in Hn. done.
Qed.

Lemma site_tab_preview (w : widgets) (i : nat) (pd pd' : gmap nat site) (fig : figure) :
  site_tab w i pd = Ok (Drawn pd' (Some fig)) →
  ∃ s width',
    pd' !! i = Some s
    ∧ fig = cross_section_preview width' (distances s) (depths s)
    ∧ length (distances s) = num_measurements s
    ∧ length (depths s) = num_measurements s.
Proof.
  unfold site_tab. intros H.
  apply bind_Ok in H as (s0 & _ & H). apply bind_Ok in H as (s1 & _ & H).
  apply bind_Ok in H as (width' & _ & H). apply bind_Ok in H as (n' & _ & H).
  apply bind_Ok in H as ([pd3 rerun] & Hup & H).
  destruct rerun; [done|].
  destruct (0 <? _) eqn:Hnum; [|done].
  apply bind_Ok in H as (s3 & Hs3 & H).
  apply bind_Ok in H as (ds & Hds & H). apply bind_Ok in H as (zs & Hzs & [= <- <-]).
  apply update_block_site in Hup as (s3' & Hs3' & Hn).
  unfold site_at in Hs3. rewrite Hs3' in Hs3. injection Hs3 as <-.
  apply distance_inputs_length in Hds. apply depth_inputs_length in Hzs.
  eexists _, _. split; [by rewrite lookup_insert_eq|]. split; [reflexivity|].
  cbn. by rewrite Hds, Hzs.
Qed.

(** C1.  For a site whose [distances] and [depths] have the same length, the
    river-bed trace of the per-site preview and the river-bed trace of the
    site's cell in the "All Cross-Sections" figure are both the polyline of
    the points [(distances[j], -depths[j])], [j = 0, 1, ...] in input order:
    nothing is sorted, dropped or added, whatever the order of [distances]. *)
Theorem riverbed_polyline_in_input_order (w : float) (i : nat) (s : site) :
  length (distances s) = length (depths s) →
  let points := map (fun j => (nth j (distances s) nan, (- nth j (depths s) nan)%float))
                    (seq 0 (length (distances s))) in
  (∃ bed, cross_section_preview w (distances s) (depths s) !! 2%nat
          = Some (Trace bed)
          ∧ polyline bed = points)
  ∧ (∃ bed, (cross_section_cell i s).*2 !! 2%nat = Some (Trace bed)
            ∧ polyline bed = points).
Proof.
  intros Hlen points.
  split; eexists; (split; [reflexivity|]); cbn; by apply zip_neg_nth.
Qed.

Lemma riverbed_polyline_unsorted_site :
  let s := Site 2 3 "Meander" [2; 0; 1]%float [0.1; 0.4; 0.3]%float in
  ∃ bed, cross_section_preview 2 (distances s) (depths s) !! 2%nat
         = Some (Trace bed)
         ∧ polyline bed = [(2, -0.1); (0, -0.4); (1, -0.3)]%float.
Proof.
  intros s.
  destruct (riverbed_polyline_in_input_order 2 0 s eq_refl) as [(bed & Hbed & Hpoly) _].
  exists bed. split; [exact Hbed|]. rewrite Hpoly. reflexivity.
Defined.

(** ** The reset block *)

(** C6.  When the measurement count entered for site [i] differs from the
    stored one, the block empties the [distances] and [depths] of site [i]
    and asks for a re-run; every other entry of [point_data] (width, name,
    distances, depths) is what it was. *)
Theorem count_change_clears_only_that_site
    (pd : gmap nat site) (i : nat) (s : site) (width' : float) (n' : nat) :
  pd !! i = Some s → n' ≠ num_measurements s →
  ∃ pd', update_block pd i width' n' = Ok (pd', true)
    ∧ pd' !! i = Some (Site width' n' (point_name s) [] [])
    ∧ ∀ j, j ≠ i → pd' !! j = pd !! j.
Proof.
  intros Hs Hn. unfold update_block, site_at. rewrite Hs. cbn.
  apply Nat.eqb_neq in Hn. rewrite Hn. cbn. rewrite orb_true_r.
  eexists. split; [reflexivity|]. split.
  - by rewrite lookup_insert_eq.
  - intros j Hj. by rewrite lookup_insert_ne.
Qed.

Lemma count_change_two_sites :
  let site0 := Site 2 3 "Site 1" [0; 1; 2]%float [0; 0.5; 0]%float in
  let site1 := Site 2 3 "Site 2" [0; 1; 2]%float [0; 0.3; 0]%float in
  let pd : gmap nat site := <[1 := site1]> (<[0 := site0]> ∅) in
  ∃ pd', update_block pd 1 2 5 = Ok (pd', true)
    ∧ pd' !! 1 = Some (Site 2 5 "Site 2" [] [])
    ∧ pd' !! 0 = Some site0.
Proof.
  intros site0 site1 pd.
  destruct (count_change_clears_only_that_site pd 1 site1 2 5)
    as (pd' & Hrun & Hi & Hframe); [reflexivity|cbn; lia|].
  exists pd'. split; [exact Hrun|]. split; [exact Hi|].
  rewrite Hframe by lia. reflexivity.
Defined.

(** C9.  When only the width entered for site [i] differs from the stored
    one, the block stores the new width and does not ask for a re-run; the
    site keeps its [distances] and [depths], and the other sites are what
    they were.  A stored distance larger than the new width therefore stays
    where it was: the block does not bring the distances back into
    [[0, width]]. *)
Theorem width_change_keeps_measurements
    (pd : gmap nat site) (i : nat) (s : site) (width' : float) :
  pd !! i = Some s → (width' =? width s)%float = false →
  ∃ pd', update_block pd i width' (num_measurements s) = Ok (pd', false)
    ∧ pd' !! i
      = Some (Site width' (num_measurements s) (point_name s) (distances s) (depths s))
    ∧ (∀ j, j ≠ i → pd' !! j = pd !! j)
    ∧ ∀ d, d ∈ distances s → (width' <? d)%float = true →
        ∃ s', pd' !! i = Some s' ∧ d ∈ distances s' ∧ (width s' <? d)%float = true.
Proof.
  intros Hs Hw. unfold update_block, site_at. rewrite Hs. cbn.
  rewrite Hw, Nat.eqb_refl. cbn.
  eexists. split; [reflexivity|]. split; [by rewrite lookup_insert_eq|]. split.
  - intros j Hj. by rewrite lookup_insert_ne.
  - intros d Hd Hlt. eexists. split; [by rewrite lookup_insert_eq|]. by split.
Qed.

Lemma width_shrinks_below_a_distance :
  let s := Site 2 3 "Site 1" [0; 1; 2]%float [0; 0.5; 0]%float in
  let pd : gmap nat site := <[0 := s]> ∅ in
  ∃ pd', update_block pd 0 1 3 = Ok (pd', false)
    ∧ pd' !! 0 = Some (Site 1 3 "Site 1" [0; 1; 2]%float [0; 0.5; 0]%float).
Proof.
  intros s pd.
  destruct (width_change_keeps_measurements pd 0 s 1) as (pd' & Hrun & Hi & _);
    [reflexivity|reflexivity|].
  exists pd'. split; [exact Hrun|exact Hi].
Defined.

(** ** The table *)

Lemma table_rows_ok (pd : gmap nat site) (i : nat) (s : site) :
  pd !! i = Some s → length (distances s) = length (depths s) →
  table_rows pd i = Ok (site_rows i s).
Proof.
  intros Hs Hlen. unfold table_rows, site_at. rewrite Hs. cbn.
  apply for_each_seq. intros j [_ Hj]. cbn in Hj.
  rewrite !getitem_nth by lia. done.
Qed.

Lemma point_rows_sorted (a : nat) (nm : string) (f h : nat → float) (n k : nat) :
  StronglySorted row_before (map (fun j => Row a nm (j + 1) (f j) (h j)) (seq k n)).
Proof.
  revert k. induction n as [|n IH]; intros k; cbn; constructor; [apply IH|].
  apply Forall_forall. intros r Hr. apply list_elem_of_fmap in Hr as (j & -> & Hj).
  apply elem_of_seq in Hj. right. cbn. lia.
Qed.

Lemma site_rows_sorted i s : StronglySorted row_before (site_rows i s).
Proof. apply point_rows_sorted. Qed.

Lemma table_sorted (k : nat) (ss : list site) :
  StronglySorted row_before (concat (imap (fun i => site_rows (k + i)) ss))
  ∧ Forall (fun r => k < site_number r) (concat (imap (fun i => site_rows (k + i)) ss)).
Proof.
  revert k. induction ss as [|s ss IH]; intros k; cbn; [split; constructor|].
  destruct (IH (S k)) as [IH1 IH2].
  assert (Heq : imap ((fun i => site_rows (k + i)) ∘ S) ss
                = imap (fun i => site_rows (S k + i)) ss).
  { apply imap_ext. intros i x _. cbn. f_equal. lia. }
  rewrite Heq. split.
  - apply StronglySorted_app_2; [|apply site_rows_sorted|done].
    intros r1 r2 H1 H2. left.
    apply list_elem_of_fmap in H1 as (j & -> & _). cbn.
    rewrite Forall_forall in IH2. specialize (IH2 _ H2). lia.
  - apply Forall_app. split.
    + apply Forall_forall. intros r Hr.
      apply list_elem_of_fmap in Hr as (j & -> & _). cbn. lia.
    + eapply Forall_impl; [exact IH2|]. cbn. intros; lia.
Qed.

(** C7.  For a study whose sites all have as many depths as distances, the
    table has one row [(i + 1, name, j + 1, distances[j], depths[j])] per
    measurement point [j] of every site [i], site after site and point after
    point: its length is the sum of the [len(distances)], and it is sorted by
    site number, then by point number. *)
Theorem table_one_row_per_point (pd : gmap nat site) (ss : list site) :
  stored pd ss →
  Forall (fun s => length (distances s) = length (depths s)) ss →
  ∃ rows, build_table pd (length ss) = Ok rows
    ∧ rows = concat (imap site_rows ss)
    ∧ length rows = sum_list (map (fun s => length (distances s)) ss)
    ∧ StronglySorted row_before rows.
Proof.
  intros Hst Hlen. eexists. split; [|split; [reflexivity|split]].
  - unfold build_table. rewrite (for_each_sites pd ss _ site_rows Hst); [done|].
    intros i s Hpd Hss. apply table_rows_ok; [done|].
    rewrite Forall_forall in Hlen. apply Hlen. by eapply list_elem_of_lookup_2.
  - clear. change site_rows with (fun i => site_rows (0 + i)). generalize 0.
    induction ss as [|s ss IH]; intros k; [done|].
    rewrite imap_cons. cbn. rewrite length_app.
    erewrite imap_ext; [rewrite (IH (S k))|].
    + unfold site_rows. by rewrite length_map, length_seq.
    + intros i x _. cbn. f_equal. lia.
  - apply (table_sorted 0 ss).
Qed.

Lemma table_two_sites :
  let site1 := Site 2 2 "Source" [0; 2]%float [0.1; 0.2]%float in
  let site2 := Site 3 3 "Mouth" [0; 1.5; 3]%float [0.2; 0.6; 0.1]%float in
  let pd : gmap nat site := <[1 := site2]> (<[0 := site1]> ∅) in
  ∃ rows, build_table pd 2 = Ok rows
    ∧ length rows = 5
    ∧ map site_number rows = [1; 1; 2; 2; 2]
    ∧ map point_number rows = [1; 2; 1; 2; 3].
Proof.
  intros site1 site2 pd.
  destruct (table_one_row_per_point pd [site1; site2]) as (rows & Hrun & Hrows & _).
  - intros [|[|i]] s Hs; simplify_eq/=; reflexivity.
  - repeat constructor.
  - exists rows. split; [exact Hrun|]. rewrite Hrows. repeat split; reflexivity.
Defined.

(** ** The gate of the visualization tab *)

Lemma all_depths_recorded_spec (pd : gmap nat site) (sites : list nat) :
  (∀ i, i ∈ sites → is_Some (pd !! i)) →
  ∃ b, all_depths_recorded pd sites = Ok b
    ∧ (b = true ↔ ∀ i, i ∈ sites → ∃ s, pd !! i = Some s ∧ depths s ≠ []).
Proof.
  induction sites as [|i r IH]; intros Hpd.
  - exists true. split; [done|]. split; [|done]. intros _ i Hi. by apply elem_of_nil in Hi.
  - destruct (Hpd i) as [s Hs]; [left|].
    destruct IH as (b & Hb & Hiff); [intros j Hj; apply Hpd; by right|].
    cbn. unfold site_at. rewrite Hs. cbn.
    destruct (depths s) as [|d ds] eqn:Hd; cbn.
    + exists false. split; [done|]. split; [done|]. intros Hall.
      destruct (Hall i) as (s' & Hs' & Hne); [left|]. congruence.
    + exists b. split; [done|]. rewrite Hiff. split.
      * intros Hall j Hj. apply elem_of_cons in Hj as [->|Hj]; [|by apply Hall].
        exists s. split; [done|]. by rewrite Hd.
      * intros Hall j Hj. apply Hall. by right.
Qed.

(** C5, as the program has it.  The code of the visualization tab runs only
    in a run that reaches it: at least one site, and no site tab that ended
    the script.  Whatever the session state it reads (with every site
    present), the gate is true exactly when every site has at least one
    depth; the assembler is invoked when it is true, and the placeholder
    message is shown, without the assembler, when it is false.  A run that
    reaches the tab shows what the tab makes of the state the site tabs left,
    and a run shows the composite or the placeholder only when it reaches
    the tab. *)
Theorem gate_decides_the_view (spline : Scipy.spline_fit) :
  (∀ st, (∀ i, i < num_points st → is_Some (point_data st !! i)) →
     ∃ b, all_depths_recorded (point_data st) (seq 0 (num_points st)) = Ok b
       ∧ (b = true ↔ every_site_has_depths st)
       ∧ visualization_tab spline st
         = if b then c ← assemble spline st; Ok (Plots c) else Ok (Info placeholder))
  ∧ (∀ w st st' previews, reaches_visualization w st st' previews →
       0 < num_points st'
       ∧ script spline w st
         = (v ← visualization_tab spline st'; Ok (st', Tabs previews v)))
  ∧ (∀ w st st' previews v, script spline w st = Ok (st', Tabs previews v) →
       reaches_visualization w st st' previews).
Proof.
  split; [|split].
  - intros st Hpd.
    destruct (all_depths_recorded_spec (point_data st) (seq 0 (num_points st)))
      as (b & Hb & Hiff).
    { intros i Hi. apply Hpd. apply elem_of_seq in Hi. lia. }
    exists b. split; [done|]. split.
    + rewrite Hiff. unfold every_site_has_depths. split; intros H i Hi; apply H.
      * apply elem_of_seq. lia.
      * apply elem_of_seq in Hi. lia.
    + unfold visualization_tab. rewrite Hb. done.
  - intros w st st' previews (n & st1 & pd & Hn & Hblock & Hpos & Htabs & ->).
    split; [done|]. unfold script. rewrite Hn. cbn [mbind result_bind].
    rewrite Hblock. apply Nat.ltb_lt in Hpos. rewrite Hpos, Htabs. done.
  - intros w st st' previews v. unfold script. intros H.
    apply bind_Ok in H as (n & Hn & H).
    destruct (num_points_block n st) as [st1 [|]] eqn:Hblock; [done|].
    destruct (0 <? num_points st1) eqn:Hpos; [|done]. apply Nat.ltb_lt in Hpos.
    apply bind_Ok in H as ([pd [figs|]] & Htabs & H); [|done].
    apply bind_Ok in H as (v' & _ & [= <- <- <-]).
    by exists n, st1, pd.
Qed.

Lemma gate_with_and_without_depths :
  let empty := Session 1 (<[0 := Site 1 3 "Site 1" [] []]> ∅) in
  let full := Session 1 (<[0 := Site 1 3 "Site 1" [0; 0.5; 1]%float [0; 0.2; 0]%float]> ∅) in
  visualization_tab no_spline empty = Ok (Info placeholder)
  ∧ (∃ c, visualization_tab no_spline full = Ok (Plots c))
  ∧ script no_spline untouched full
    = (v ← visualization_tab no_spline full;
       Ok (full, Tabs [Some (cross_section_preview 1 [0; 0.5; 1]%float
                               [0; 0.2; 0]%float)] v)).
Proof.
  intros empty full.
  destruct (gate_decides_the_view no_spline) as (Hgate & Hrun & _).
  split; [|split].
  - destruct (Hgate empty) as (b & Hb & _ & Hv).
    + intros [|i] Hi; [by eexists|cbn in Hi; lia].
    + rewrite Hv. vm_compute in Hb. injection Hb as <-. reflexivity.
  - destruct (Hgate full) as (b & Hb & _ & Hv).
    + intros [|i] Hi; [by eexists|cbn in Hi; lia].
    + rewrite Hv. vm_compute in Hb. injection Hb as <-. vm_compute. by eexists.
  - apply (Hrun untouched full full). eexists 1, full, _.
    split; [reflexivity|]. split; [reflexivity|]. split; [cbn; lia|].
    split; [vm_compute; reflexivity|reflexivity].
Defined.

(** C5, as the claim has it, fails for the empty study: every one of its
    (zero) sites has a depth recorded, and the run shows neither the
    composite nor the placeholder. *)
Lemma empty_study_shows_no_view :
  let st := Session 0 ∅ in
  every_site_has_depths st
  ∧ script no_spline untouched st = Ok (st, NoTabs)
  ∧ (∀ previews v, script no_spline untouched st ≠ Ok (st, Tabs previews v)).
Proof.
  split; [intros i Hi; cbn in Hi; lia|]. split; [reflexivity|].
  intros previews v H. discriminate H.
Qed.

(** ** A study of one site *)

Lemma build_table_single (pd : gmap nat site) (s : site) :
  pd !! 0 = Some s → length (distances s) = length (depths s) →
  build_table pd 1 = Ok (site_rows 0 s).
Proof.
  intros Hs Hlen. unfold build_table. cbn. rewrite (table_rows_ok pd 0 s Hs Hlen). cbn.
  by rewrite app_nil_r.
Qed.

(** C10.  For a study of one site with at least one depth (and as many
    depths as distances), the visualization tab shows the composite, not the
    placeholder; its 3D figure holds one marker per measurement point, at
    [(distance, 0, -depth)], followed by the site-name label, and no surface
    at all. *)
Theorem single_site_has_markers_only
    (spline : Scipy.spline_fit) (pd : gmap nat site) (s : site) :
  pd !! 0 = Some s → depths s ≠ [] → length (distances s) = length (depths s) →
  ∃ c, visualization_tab spline (Session 1 pd) = Ok (Plots c)
    ∧ river_profile c
      = map Trace
          (map (marker 0) (zip (distances s) (depths s))
           ++ [Scatter3d "text" [(width s + width s * 0.5 + 0.5)%float] [0%float]
                 [(bank_height / 2)%float] [NameText (point_name s)]])
    ∧ Forall (fun it => match it with Trace t => is_surface t = false | _ => True end)
             (river_profile c).
Proof.
  intros Hs Hne Hlen.
  unfold visualization_tab, assemble. cbn. unfold site_at. rewrite Hs. cbn.
  destruct (depths s) as [|d ds] eqn:Hd; [done|]. cbn.
  rewrite (build_table_single pd s Hs) by (by rewrite Hd). cbn.
  eexists. split; [reflexivity|]. cbn. split.
  - rewrite app_nil_r. f_equal. f_equal. apply map_ext. by intros [].
  - rewrite app_nil_r, map_app, Forall_app. split.
    + rewrite Forall_forall. intros it Hit.
      apply list_elem_of_fmap in Hit as (t & -> & Ht).
      apply list_elem_of_fmap in Ht as ([] & -> & _). done.
    + by repeat constructor.
Qed.

Lemma single_site_example :
  let s := Site 2 3 "Ford" [0; 1; 2]%float [0; 0.5; 0]%float in
  ∃ c, visualization_tab no_spline (Session 1 (<[0 := s]> ∅)) = Ok (Plots c)
    ∧ length (river_profile c) = 4.
Proof.
  intros s.
  destruct (single_site_has_markers_only no_spline (<[0 := s]> ∅) s)
    as (c & Hrun & Hfig & _); [reflexivity|discriminate|reflexivity|].
  exists c. split; [exact Hrun|]. rewrite Hfig. reflexivity.
Defined.

(** ** The left bank between two sites *)





(** ** Resampling one site *)

Lemma length_set_last l v : length (Np.set_last l v) = length l.
Proof. induction l as [|a [|b l] IH]; cbn in *; congruence. Qed.

Lemma set_last_lookup_lt l v k : k + 1 < length l → Np.set_last l v !! k = l !! k.
Proof.
  revert k. induction l as [|a [|b l] IH]; intros k Hk; cbn in *; try lia.
  destruct k as [|k]; [done|]. cbn. apply IH. lia.
Qed.

Lemma set_last_lookup_last l v : l ≠ [] → Np.set_last l v !! (length l - 1) = Some v.
Proof.
  induction l as [|a [|b l] IH]; intros Hne; [done|done|].
  cbn [length]. replace (S (S (length l)) - 1) with (S (length (b :: l) - 1)) by (cbn; lia).
  cbn [Np.set_last lookup list_lookup]. apply IH. done.
Qed.

Lemma length_linspace start stop n : length (Np.linspace start stop n) = n.
Proof.
  unfold Np.linspace.
  assert (H : ∀ l, length (if 1 <? n then Np.set_last l stop else l) = length l).
  { intros l. destruct (1 <? n); [apply length_set_last|done]. }
  rewrite H, length_map. destruct (0 <? n - 1); [destruct (_ =? _)%float|];
    by rewrite length_map, length_map, length_seq.
Qed.

Lemma linspace_lookup start stop n k :
  k + 1 < n →
  Np.linspace start stop n !! k
  = Some (let delta := (stop - start)%float in
          let step := (delta / float_of_nat (n - 1))%float in
          if (step =? 0)%float
          then (float_of_nat k / float_of_nat (n - 1) * delta + start)%float
          else (float_of_nat k * step + start)%float).
Proof.
  intros Hk. unfold Np.linspace.
  assert (H1 : (1 <? n) = true) by (apply Nat.ltb_lt; lia).
  assert (H0 : (0 <? n - 1) = true) by (apply Nat.ltb_lt; lia).
  rewrite H1, H0. rewrite set_last_lookup_lt.
  2:{ destruct (_ =? _)%float; rewrite !length_map, length_seq; lia. }
  cbn zeta. destruct (_ =? _)%float;
    rewrite !list_lookup_fmap, lookup_seq_lt by lia; reflexivity.
Qed.

Lemma linspace_last start stop n :
  1 < n → Np.linspace start stop n !! (n - 1) = Some stop.
Proof.
  intros Hn. unfold Np.linspace.
  assert (H1 : (1 <? n) = true) by (apply Nat.ltb_lt; lia). rewrite H1.
  match goal with |- Np.set_last ?l _ !! _ = _ => set (L := l) end.
  assert (Hlen : length L = n).
  { subst L. destruct (0 <? n - 1); [destruct (_ =? _)%float|];
      by rewrite !length_map, length_seq. }
  generalize dependent L. intros L Hlen. rewrite <- Hlen.
  apply set_last_lookup_last. intros ->. cbn in Hlen. lia.
Qed.

Lemma sub_zero_r (x : float) : (x - 0 = x)%float.
Proof.
  apply Prim2SF_inj. rewrite sub_spec.
  change (Prim2SF 0) with (S754_zero false).
  by destruct (Prim2SF x) as [[]|[]| |].
Qed.

Lemma SFcompare_Eq_sym (x y : spec_float) :
  SFcompare x y = Some Eq → SFcompare y x = Some Eq.
Proof.
  destruct x as [sx|sx| |sx mx ex], y as [sy|sy| |sy my ey]; cbn; try done;
    try (by destruct sx); try (by destruct sy); try (by destruct sx, sy).
  destruct sx, sy; try done.
  - rewrite (Z.compare_antisym ex ey). destruct (ex ?= ey)%Z; cbn; try done.
    assert (H : Pos.compare_cont Eq my mx = CompOpp (Pos.compare_cont Eq mx my))
      by (symmetry; apply (Pos.compare_cont_antisym mx my Eq)).
    rewrite H. destruct (Pos.compare_cont Eq mx my); cbn; done.
  - rewrite (Z.compare_antisym ex ey). destruct (ex ?= ey)%Z; cbn; try done.
    assert (H : Pos.compare_cont Eq my mx = CompOpp (Pos.compare_cont Eq mx my))
      by (symmetry; apply (Pos.compare_cont_antisym mx my Eq)).
    rewrite H. destruct (Pos.compare_cont Eq mx my); cbn; done.
Qed.

Lemma eqb_sym (x y : float) : (x =? y)%float = (y =? x)%float.
Proof.
  rewrite !FloatAxioms.eqb_spec. unfold SFeqb.
  destruct (SFcompare (Prim2SF x) (Prim2SF y)) as [[]|] eqn:H1.
  - by rewrite (SFcompare_Eq_sym _ _ H1).
  - destruct (SFcompare (Prim2SF y) (Prim2SF x)) as [[]|] eqn:H2; try done.
    apply SFcompare_Eq_sym in H2. congruence.
  - destruct (SFcompare (Prim2SF y) (Prim2SF x)) as [[]|] eqn:H2; try done.
    apply SFcompare_Eq_sym in H2. congruence.
  - destruct (SFcompare (Prim2SF y) (Prim2SF x)) as [[]|] eqn:H2; try done.
    apply SFcompare_Eq_sym in H2. congruence.
Qed.

Lemma pairwise_distinct_lt l i j a b :
  pairwise_distinct l = true → l !! i = Some a → l !! j = Some b → i < j →
  (a =? b)%float = false.
Proof.
  revert i j. induction l as [|x l IH]; intros i j Hp Hi Hj Hij; [done|].
  cbn in Hp. apply andb_true_iff in Hp as [Hx Hl].
  destruct j as [|j]; [lia|]. destruct i as [|i]; simplify_eq/=.
  - rewrite forallb_forall in Hx. apply negb_true_iff, Hx, list_elem_of_In.
    by eapply list_elem_of_lookup_2.
  - apply (IH i j); [done|done|done|lia].
Qed.

Lemma pairwise_distinct_distinct l : pairwise_distinct l = true → distinct l.
Proof.
  intros Hp i j a b Hi Hj Hij. destruct (Nat.lt_ge_cases i j) as [Hlt|Hge].
  - by apply (pairwise_distinct_lt l i j).
  - rewrite eqb_sym. apply (pairwise_distinct_lt l j i); [done|done|done|lia].
Qed.

Lemma insert_by_x_perm p l : Scipy.insert_by_x p l ≡ₚ p :: l.
Proof.
  induction l as [|q l IH]; cbn; [done|].
  destruct (_ <? _)%float; [|done]. rewrite IH. apply Permutation_swap.
Qed.

Lemma sort_by_x_perm l : Scipy.sort_by_x l ≡ₚ l.
Proof.
  induction l as [|p l IH]; cbn; [done|]. by rewrite insert_by_x_perm, IH.
Qed.

Lemma distinct_perm l l' : l ≡ₚ l' → distinct l' → distinct l.
Proof.
  intros Hp Hd. apply Permutation_inj in Hp as (_ & f & Hinj & Hf).
  intros i j a b Hi Hj Hij. rewrite Hf in Hi, Hj.
  apply (Hd (f i) (f j)); [done|done|]. intros Heq. by apply Hinj in Heq.
Qed.

Lemma distinct_no_duplicates l : distinct l → Scipy.has_duplicates l = false.
Proof.
  induction l as [|a [|b l] IH]; intros Hd; [done|done|].
  cbn [Scipy.has_duplicates]. rewrite (Hd 1 0 b a) by done. cbn [orb].
  apply IH. intros i j x y Hi Hj Hij. apply (Hd (S i) (S j)); [done|done|lia].
Qed.

Lemma sorted_no_duplicates (x y : list float) :
  length y = length x → distinct x →
  Scipy.has_duplicates (Scipy.sort_by_x (zip x y)).*1 = false.
Proof.
  intros Hlen Hd. apply distinct_no_duplicates.
  apply (distinct_perm _ x); [|done].
  rewrite sort_by_x_perm. rewrite fst_zip by lia. done.
Qed.

Lemma length_sorted (x y : list float) :
  length y = length x → length (Scipy.sort_by_x (zip x y)).*1 = length x.
Proof.
  intros Hlen. rewrite length_fmap, (Permutation_length (sort_by_x_perm _)), length_zip. lia.
Qed.

Lemma zero_mul_add (t : float) : finiteb t = true → (0 * t + 0 = 0)%float.
Proof.
  unfold finiteb. intros Ht. apply Prim2SF_inj. rewrite add_spec, mul_spec.
  change (Prim2SF 0) with (S754_zero false).
  by destruct (Prim2SF t) as [[]|[]| |[] m e].
Qed.

Lemma linspace_resampled w zs :
  length zs = 30 → resampled w (Np.linspace 0 w num_interp_points) zs.
Proof.
  intros Hz.
  assert (Hk : ∀ k, k < 29 →
            Np.linspace 0 w num_interp_points !! k
            = Some (if (w / 29 =? 0)%float
                    then (float_of_nat k / 29 * w + 0)%float
                    else (float_of_nat k * (w / 29) + 0)%float)).
  { intros k Hk. rewrite linspace_lookup by (unfold num_interp_points; lia).
    cbn zeta. rewrite sub_zero_r. reflexivity. }
  split; [apply length_linspace|]. split; [done|]. split; [exact Hk|]. split.
  - intros Hw Hstep. rewrite Hk by lia. f_equal.
    change (float_of_nat 0 / 29)%float with 0%float.
    change (float_of_nat 0) with 0%float.
    destruct (w / 29 =? 0)%float; by apply zero_mul_add.
  - apply (linspace_last 0 w 30). lia.
Qed.

Lemma interpolate_site_shape (spline : Scipy.spline_fit) (s : site) (xs zs : list float) :
  interpolate_site spline s = Ok (xs, zs) → resampled (width s) xs zs.
Proof.
  unfold interpolate_site. destruct (2 <=? length (distances s)).
  - intros H. apply bind_Ok in H as (f & _ & [= <- <-]).
    apply linspace_resampled. by rewrite length_map, length_linspace.
  - intros H. apply bind_Ok in H as (d0 & _ & [= <- <-]).
    apply linspace_resampled. reflexivity.
Qed.

Lemma interpolate_site_returns (spline : Scipy.spline_fit) (s : site) :
  length (depths s) = length (distances s) → depths s ≠ [] →
  length (distances s) ≤ 3 ∨ distinct (distances s) →
  ∃ xs zs, interpolate_site spline s = Ok (xs, zs).
Proof.
  intros Hlen Hne Hd. unfold interpolate_site, Scipy.interp1d.
  destruct (2 <=? length (distances s)) eqn:H2.
  - rewrite Hlen, Nat.eqb_refl. cbn [negb].
    destruct (3 <? length (distances s)) eqn:H3; cbn; [|by eauto].
    apply Nat.ltb_lt in H3. destruct Hd as [Hd|Hd]; [lia|].
    rewrite (sorted_no_duplicates _ _ Hlen Hd).
    assert (H4 : (length (Scipy.sort_by_x (zip (distances s) (depths s))).*1 <? 4)
                 = false).
    { rewrite length_sorted by done. apply Nat.ltb_ge. lia. }
    cbn in H4. rewrite H4. cbn. by eauto.
  - destruct (depths s) as [|d ds]; [done|]. cbn. by eauto.
Qed.

(** Whenever a site is resampled, whatever its number of measurement
    points, the result has exactly 30 x-positions, evenly spaced from 0 to
    the width of the site, and exactly 30 elevations.  A site is resampled
    when it has as many depths as distances, at least one depth and, with
    more than three points, no two equal distances. *)
Lemma resampling_gives_30_points (spline : Scipy.spline_fit) (s : site) :
  (∀ xs zs, interpolate_site spline s = Ok (xs, zs) → resampled (width s) xs zs)
  ∧ (length (depths s) = length (distances s) → depths s ≠ [] →
     length (distances s) ≤ 3 ∨ pairwise_distinct (distances s) = true →
     ∃ xs zs, interpolate_site spline s = Ok (xs, zs)).
Proof.
  split; [intros xs zs; apply interpolate_site_shape|].
  intros Hlen Hne Hd. apply (interpolate_site_returns spline s Hlen Hne).
  destruct Hd as [Hd|Hd]; [by left|right; by apply pairwise_distinct_distinct].
Qed.

Lemma resampling_2_3_4_and_20_points :
  let site_of (n : nat) :=
    Site 19 n "Site" (map float_of_nat (seq 0 n)) (map float_of_nat (seq 0 n)) in
  Forall (fun n => ∃ xs zs, interpolate_site no_spline (site_of n) = Ok (xs, zs)
                     ∧ length xs = 30 ∧ length zs = 30 ∧ xs !! 0 = Some 0%float)
         [2; 3; 4; 20].
Proof.
  intros site_of.
  repeat (apply Forall_cons; split); [..|by apply Forall_nil]; lazy beta;
    match goal with |- ∃ xs zs, interpolate_site _ (site_of ?n) = _ ∧ _ =>
      destruct (resampling_gives_30_points no_spline (site_of n)) as [Hshape Hret];
      destruct Hret as (xs & zs & Hrun);
        [reflexivity|discriminate| |
         destruct (Hshape xs zs Hrun) as (Hx & Hz & _ & H0 & _);
         exists xs, zs; split; [exact Hrun|split; [exact Hx|split; [exact Hz|exact (H0 eq_refl eq_refl)]]]]
    end;
    first [left; cbn; lia | right; vm_compute; reflexivity].
Defined.

(** ** A repeated distance *)

(** C3, at a site the form can produce: four measurement points, two of them
    at distance 0, in a river 1 m wide.  The site is valid and it is not
    resampled at all: the cubic [interp1d] refuses the repeated abscissa, and
    the [ValueError] leaves the interpolation loop whatever the four depths
    and the fitted spline are.  The site has no 30 positions and no 30
    elevations. *)
Theorem resampling_raises_at_a_repeated_distance
    (spline : Scipy.spline_fit) (d0 d1 d2 d3 : float) :
  let s := Site 1 4 "Site 1" [0; 0; 0.5; 1]%float [d0; d1; d2; d3] in
  valid_site s = true
  ∧ length (distances s) = 4
  ∧ interpolate_site spline s = Raise ValueError
  ∧ ∀ xs zs, interpolate_site spline s ≠ Ok (xs, zs).
Proof.
  intros s.
  assert (Hrun : interpolate_site spline s = Raise ValueError) by reflexivity.
  split; [reflexivity|]. split; [reflexivity|]. split; [exact Hrun|].
  intros xs zs H. rewrite Hrun in H. discriminate H.
Qed.

(** C2, at a study the form can produce: four measurement points at site 1,
    two of them at distance 0.  Every site is valid, the gate is passed, and
    the cubic [interp1d] refuses the repeated abscissa: the [ValueError]
    leaves the visualization tab, and the script.  The same happens when the
    values are entered through the widgets: the first run resets the arrays
    of site 1 for the new count and re-runs, the second run raises. *)
Theorem repeated_distance_raises (spline : Scipy.spline_fit) :
  let site0 := Site 1 4 "Site 1" [0; 0; 0.5; 1]%float [0.1; 0.3; 0.3; 0.1]%float in
  let site1 := Site 1 3 "Site 2" [0; 0.5; 1]%float [0; 0.2; 0]%float in
  let st := Session 2 (<[1 := site1]> (<[0 := site0]> ∅)) in
  let entered :=
    Widgets None (fun _ => None) (fun _ => None)
      (fun i => if (i =? 0)%nat then Some 4 else None)
      (fun i j => if (i =? 0)%nat && (j =? 1)%nat then Some 0%float else None)
      (fun _ _ => None) in
  (valid_site site0 = true ∧ valid_site site1 = true
   ∧ all_depths_recorded (point_data st) (seq 0 (num_points st)) = Ok true
   ∧ interpolate_site spline site0 = Raise ValueError
   ∧ visualization_tab spline st = Raise ValueError)
  ∧ ∃ st1, script spline entered (Session 2 ∅) = Ok (st1, Rerunning)
         ∧ script spline entered st1 = Raise ValueError.
Proof.
  intros site0 site1 st entered. split.
  - repeat split; vm_compute; reflexivity.
  - eexists. split; vm_compute; reflexivity.
Qed.

(** ** Constant depths *)

Lemma float_sub_diag (d : float) :
  regular_depth d = true → Prim2SF (d - d) = S754_zero false.
Proof.
  unfold regular_depth. rewrite sub_spec.
  destruct (Prim2SF d) as [[]|s| |s m e]; try done. intros _.
  unfold SF64sub, SFsub. by rewrite Z.sub_diag.
Qed.

Lemma flat_chord (d u v : float) :
  regular_depth d = true → nonzero_number u = true → finiteb v = true →
  ((d - d) / u * v + d)%float = d.
Proof.
  intros Hd Hu Hv. apply Prim2SF_inj.
  rewrite add_spec, mul_spec, div_spec, (float_sub_diag d Hd).
  unfold regular_depth in Hd. unfold nonzero_number in Hu. unfold finiteb in Hv.
  destruct (Prim2SF u) as [su|su| |su mu eu]; try done;
    destruct (Prim2SF v) as [sv|sv| |sv mv ev]; try done;
    destruct (Prim2SF d) as [[]|sd| |sd md ed]; try done;
    by destruct su, sv.
Qed.

Lemma sorted_ordinates_constant (x : list float) (d : float) :
  Forall (fun y => y = d) (Scipy.sort_by_x (zip x (repeat d (length x)))).*2.
Proof.
  apply Forall_forall. intros y Hy.
  apply list_elem_of_fmap in Hy as ([a b] & -> & Hp). cbn.
  rewrite sort_by_x_perm in Hp. apply elem_of_zip_r in Hp.
  apply list_elem_of_In, repeat_spec in Hp. done.
Qed.

Lemma nth_constant (l : list float) (d : float) (k : nat) :
  Forall (fun y => y = d) l → k < length l → nth k l nan = d.
Proof.
  intros Hl Hk. destruct (lookup_lt_is_Some_2 l k Hk) as [y Hy].
  rewrite (nth_lookup_Some l k nan y Hy).
  rewrite Forall_forall in Hl. apply Hl. by eapply list_elem_of_lookup_2.
Qed.

Lemma call_linear_constant (x y : list float) (d x_new : float) :
  2 ≤ length x → length y = length x → Forall (fun v => v = d) y →
  regular_depth d = true →
  (let '(x_lo, x_hi) := bracket x x_new in
   nonzero_number (x_hi - x_lo) && finiteb (x_new - x_lo)) = true →
  Scipy.call_linear x y x_new = d.
Proof.
  intros Hn Hlen Hy Hd Hb. unfold Scipy.call_linear. unfold bracket in Hb.
  set (hi := Scipy.clip (Scipy.searchsorted x x_new) 1 (length x - 1)) in *.
  assert (Hhi : 1 ≤ hi ≤ length x - 1) by (unfold hi, Scipy.clip; lia).
  apply andb_true_iff in Hb as [Hu Hv].
  rewrite !(nth_constant y d) by (done || lia).
  by apply flat_chord.
Qed.

Lemma constant_list (l : list float) (d : float) :
  Forall (fun y => y = d) l → l = repeat d (length l).
Proof. induction 1 as [|y l -> _ IH]; cbn; [done|]. by rewrite <- IH. Qed.

Lemma map_constant (f : float → float) (l : list float) (c : float) :
  (∀ x, x ∈ l → f x = c) → map f l = repeat c (length l).
Proof.
  induction l as [|x l IH]; intros Hf; cbn; [done|].
  rewrite Hf by left. f_equal. apply IH. intros y Hy. apply Hf. by right.
Qed.

(** The program has no branch for "one distinct depth": its fallback is for
    a site with fewer than two points, and a constant profile otherwise comes
    out of the interpolation.  For a site whose depths all equal [d], the
    resampled profile is [-d] at each of the 30 positions
    - with one point (the fallback);
    - with two or three points (linear interpolation), when [d] is finite and
      not [-0.0], the neighbouring sorted distances differ and the offsets
      are finite. *)
Lemma constant_depths_give_constant_profile
    (spline : Scipy.spline_fit) (s : site) (d : float) :
  depths s = repeat d (length (distances s)) →
  length (distances s) = 1
  ∨ (2 ≤ length (distances s) ≤ 3 ∧ regular_depth d = true
     ∧ well_conditioned s = true) →
  ∃ xs, interpolate_site spline s = Ok (xs, repeat (- d)%float 30).
Proof.
  intros Hdepths Hcase.
  assert (Hlen : length (depths s) = length (distances s))
    by (by rewrite Hdepths, repeat_length).
  unfold interpolate_site, Scipy.interp1d.
  destruct Hcase as [H1|([Hn2 Hn3] & Hd & Hwc)].
  { rewrite Hdepths, H1. cbn. by eexists. }
  assert (H2 : (2 <=? length (distances s)) = true) by (apply Nat.leb_le; lia).
  rewrite H2, Hlen, Nat.eqb_refl. cbn [negb].
  replace 30 with (length (Np.linspace 0 (width s) num_interp_points))
    by apply length_linspace.
  assert (H3 : (3 <? length (distances s)) = false) by (apply Nat.ltb_ge; lia).
  rewrite H3. cbn [mbind result_bind]. eexists. f_equal. f_equal.
  apply map_constant. intros x Hx. f_equal.
  unfold well_conditioned in Hwc. rewrite forallb_forall in Hwc.
  apply call_linear_constant.
  - rewrite length_sorted; [lia|done].
  - by rewrite !length_fmap.
  - rewrite Hdepths. apply sorted_ordinates_constant.
  - done.
  - apply Hwc. by apply list_elem_of_In.
Qed.

(** C4, at a site the form can produce: three measurement points, two of
    them at distance 0, all of depth 1.  The site is valid and is resampled
    by linear interpolation; the chord through the two points at the same
    distance has slope [0 / 0], and the profile starts with NaN: it is not
    the constant [-1]. *)
Theorem repeated_distance_gives_nan (spline : Scipy.spline_fit) :
  let s := Site 2 3 "Site 1" [0; 0; 2]%float [1; 1; 1]%float in
  valid_site s = true
  ∧ depths s = repeat 1%float (length (distances s))
  ∧ ∃ xs zs, interpolate_site spline s = Ok (xs, zs)
      ∧ zs !! 0 = Some nan
      ∧ zs ≠ repeat (-1)%float 30.
Proof.
  intros s. split; [reflexivity|]. split; [reflexivity|].
  eexists _, _. split; [vm_compute; reflexivity|]. split; [reflexivity|].
  intros H. apply (f_equal (fun l => match l with x :: _ => is_nan x | [] => false end)) in H.
  vm_compute in H. discriminate H.
Qed.

Lemma constant_profile_example :
  let s := Site 2 3 "Site 1" [0; 1; 2]%float [1; 1; 1]%float in
  ∃ xs, interpolate_site no_spline s = Ok (xs, repeat (-1)%float 30).
Proof.
  intros s. apply (constant_depths_give_constant_profile no_spline s 1); [reflexivity|].
  right. split; [cbn; lia|]. split; vm_compute; reflexivity.
Defined.

(** ** Where the visualization cannot raise *)

Lemma for_each_returns {A B} (f : A → result B) (xs : list A) :
  (∀ x, x ∈ xs → ∃ y, f x = Ok y) →
  ∃ ys, for_each f xs = Ok ys ∧ length ys = length xs.
Proof.
  induction xs as [|x xs IH]; intros Hf; [by exists []|].
  destruct (Hf x) as [y Hy]; [left|].
  destruct IH as (ys & Hys & Hlen); [intros z Hz; apply Hf; by right|].
  exists (y :: ys). cbn. rewrite Hy. cbn. rewrite Hys. cbn. by rewrite Hlen.
Qed.

Lemma max_returns (l : list float) : l ≠ [] → ∃ m, Py.max l = Ok m.
Proof. destruct l; [done|]. by eexists. Qed.

Lemma stored_site (pd : gmap nat site) (ss : list site) (P : site → Prop) (i : nat) :
  stored pd ss → Forall P ss → i < length ss →
  ∃ s, pd !! i = Some s ∧ P s.
Proof.
  intros Hst HP Hi. destruct (lookup_lt_is_Some_2 ss i Hi) as [s Hs].
  exists s. split; [by apply Hst|]. rewrite Forall_forall in HP.
  apply HP. by eapply list_elem_of_lookup_2.
Qed.

Lemma for_sites_returns {B} (pd : gmap nat site) (ss : list site) (P : site → Prop)
    (f : nat → result B) (n : nat) :
  stored pd ss → Forall P ss → n ≤ length ss →
  (∀ i s, pd !! i = Some s → P s → i < n → ∃ y, f i = Ok y) →
  ∃ ys, for_each f (seq 0 n) = Ok ys ∧ length ys = n.
Proof.
  intros Hst HP Hn Hf.
  destruct (for_each_returns f (seq 0 n)) as (ys & Hys & Hlen).
  - intros i Hi. apply elem_of_seq in Hi.
    destruct (stored_site pd ss P i Hst HP) as (s & Hs & Hp); [lia|].
    apply (Hf i s); [done|done|lia].
  - exists ys. split; [done|]. by rewrite Hlen, length_seq.
Qed.

Lemma ground_section_returns (pd : gmap nat site) (be : float) (i : nat) (curr next : site) :
  pd !! i = Some curr → pd !! (i + 1) = Some next →
  depths curr ≠ [] → depths next ≠ [] →
  (∃ t, left_bank pd be i = Ok t) ∧ (∃ t, right_bank pd be i = Ok t)
  ∧ (∃ t, river_bottom pd i = Ok t).
Proof.
  intros Hc Hn Hdc Hdn.
  destruct (depths curr) as [|c0 cs] eqn:Hcd; [done|].
  destruct (depths next) as [|n0 ns] eqn:Hnd; [done|].
  unfold left_bank, right_bank, river_bottom, max_depth_section, site_at.
  rewrite Hc, Hn. cbn. rewrite Hcd, Hnd. cbn.
  repeat split; eexists; reflexivity.
Qed.

Lemma interpolable_recorded s : interpolable s → recorded s.
Proof. intros (? & ? & _). by split. Qed.

Lemma for_each_outcome {A B} (f : A → result B) (xs : list A) (e0 : exn) (Q : A → Prop) :
  (∀ x, x ∈ xs → (∃ y, f x = Ok y) ∨ (f x = Raise e0 ∧ Q x)) →
  (∃ ys, for_each f xs = Ok ys) ∨ (for_each f xs = Raise e0 ∧ ∃ x, x ∈ xs ∧ Q x).
Proof.
  induction xs as [|x xs IH]; intros Hf; [left; by exists []|].
  cbn [for_each]. destruct (Hf x) as [[y Hy]|[Hy Hq]]; [left| |].
  - rewrite Hy. cbn [mbind result_bind].
    destruct IH as [[ys Hys]|(Hys & z & Hz & Hq)]; [intros z Hz; apply Hf; by right| |].
    + left. rewrite Hys. by eexists.
    + right. rewrite Hys. split; [done|]. exists z. split; [by right|done].
  - right. rewrite Hy. split; [done|]. exists x. split; [left|done].
Qed.

Lemma interpolate_site_outcome (spline : Scipy.spline_fit) (s : site) :
  recorded s →
  (∃ xz, interpolate_site spline s = Ok xz)
  ∨ (interpolate_site spline s = Raise ValueError ∧ repeated s).
Proof.
  intros [Hne Hlen].
  destruct (decide (length (distances s) ≤ 3)) as [H3|H3].
  { left. destruct (interpolate_site_returns spline s) as (xs & zs & H);
      [done|done|by left|by eexists]. }
  destruct (pairwise_distinct (distances s)) eqn:Hd.
  { left. destruct (interpolate_site_returns spline s) as (xs & zs & H);
      [done|done|right; by apply pairwise_distinct_distinct|by eexists]. }
  unfold interpolate_site, Scipy.interp1d.
  assert (H2 : (2 <=? length (distances s)) = true) by (apply Nat.leb_le; lia).
  assert (H4 : (3 <? length (distances s)) = true) by (apply Nat.ltb_lt; lia).
  rewrite H2, H4, <- Hlen, Nat.eqb_refl. cbn [negb].
  destruct (Scipy.has_duplicates _).
  - right. split; [done|]. split; [lia|done].
  - destruct (_ <? 4); [right; split; [done|split; [lia|done]]|].
    left. by eexists.
Qed.

(** With the sites [ss] stored, each with depths and as many distances as
    depths, the parts of the composite return; the river bed alone can raise,
    and only at a site with repeated distances. *)
Section Outcome.
Context (spline : Scipy.spline_fit) (pd : gmap nat site) (ss : list site).
Hypothesis Hst : stored pd ss.
Hypothesis Hrec : Forall recorded ss.

Lemma river_bed_outcome :
  (∃ t, river_bed spline pd (length ss) = Ok t)
  ∨ (river_bed spline pd (length ss) = Raise ValueError
     ∧ ∃ i s, ss !! i = Some s ∧ repeated s).
Proof.
  unfold river_bed.
  match goal with |- context [for_each ?f ?l] =>
    destruct (for_each_outcome f l ValueError
                (fun i => ∃ s, ss !! i = Some s ∧ repeated s))
      as [[rows ->]|(-> & i & _ & s & Hs & Hr)] end.
  - intros i Hi. apply elem_of_seq in Hi.
    destruct (lookup_lt_is_Some_2 ss i) as [s Hs]; [lia|].
    unfold site_at. rewrite (Hst i s Hs). cbn [mbind result_bind].
    assert (Hr : recorded s).
    { rewrite Forall_forall in Hrec. apply Hrec. by eapply list_elem_of_lookup_2. }
    destruct (interpolate_site_outcome spline s Hr) as [[xz ->]|[-> Hrep]].
    + left. by eexists.
    + right. split; [done|]. by exists s.
  - left. by eexists.
  - right. split; [done|]. by exists i, s.
Qed.

Lemma widths_return :
  ∃ widths, for_each (fun i => s ← site_at pd i; Ok (width s)) (seq 0 (length ss))
            = Ok widths ∧ length widths = length ss.
Proof.
  apply (for_sites_returns pd ss recorded); [done|done|lia|].
  intros i s Hs _ Hi. unfold site_at. rewrite Hs. by eexists.
Qed.

Lemma deepest_return :
  ∃ deep, for_each (fun i => s ← site_at pd i; Py.max (depths s)) (seq 0 (length ss))
          = Ok deep ∧ length deep = length ss.
Proof.
  apply (for_sites_returns pd ss recorded); [done|done|lia|].
  intros i s Hs [Hd _] Hi. unfold site_at. rewrite Hs. by apply max_returns.
Qed.

Lemma titles_return :
  ∃ titles, for_each (fun i => s ← site_at pd i; Ok (point_name s)) (seq 0 (length ss))
            = Ok titles ∧ length titles = length ss.
Proof.
  apply (for_sites_returns pd ss recorded); [done|done|lia|].
  intros i s Hs _ Hi. unfold site_at. rewrite Hs. by eexists.
Qed.

Lemma ground_returns (be : float) : ∃ g, ground pd be (length ss) = Ok g.
Proof.
  unfold ground.
  match goal with |- context [for_each ?f ?l] =>
    destruct (for_each_returns f l) as (secs & Hsecs & _); [|rewrite Hsecs; by eexists] end.
  intros i Hi. apply elem_of_seq in Hi.
  destruct (stored_site pd ss recorded i Hst Hrec) as (c & Hc & Hpc & _); [lia|].
  destruct (stored_site pd ss recorded (i + 1) Hst Hrec) as (n & Hn & Hpn & _); [lia|].
  destruct (ground_section_returns pd be i c n Hc Hn Hpc Hpn)
    as ([l Hl] & [r Hr] & [b Hb]).
  rewrite Hl, Hr, Hb. by eexists.
Qed.

Lemma water_surface_returns : ∃ t, water_surface pd (length ss) = Ok t.
Proof.
  unfold water_surface.
  match goal with |- context [for_each ?f ?l] =>
    destruct (for_sites_returns pd ss recorded f (length ss)) as (rows & Hrows & _);
      [exact Hst|exact Hrec|lia| |rewrite Hrows; by eexists] end.
  intros i s Hs _ Hi. unfold site_at. rewrite Hs. by eexists.
Qed.

Lemma surfaces_outcome (be : float) :
  (∃ s, surfaces spline pd be (length ss) = Ok s)
  ∨ (surfaces spline pd be (length ss) = Raise ValueError
     ∧ 2 ≤ length ss ∧ ∃ i s, ss !! i = Some s ∧ repeated s).
Proof.
  unfold surfaces. destruct (2 <=? length ss) eqn:H2; [|left; by eexists].
  apply Nat.leb_le in H2.
  destruct river_bed_outcome as [[bed ->]|[-> Hbad]]; [|by right].
  destruct (ground_returns be) as [g ->]. destruct water_surface_returns as [w ->].
  left. by eexists.
Qed.

Lemma markers_returns : ∃ m, markers pd (length ss) = Ok m.
Proof.
  unfold markers.
  match goal with |- context [for_each ?f ?l] =>
    destruct (for_sites_returns pd ss recorded f (length ss)) as (rows & Hrows & _);
      [exact Hst|exact Hrec|lia| |rewrite Hrows; by eexists] end.
  intros i s Hs _ Hi. unfold site_at. rewrite Hs. by eexists.
Qed.

Lemma site_labels_returns (mw be : float) : ∃ l, site_labels pd mw be (length ss) = Ok l.
Proof.
  unfold site_labels.
  destruct (for_sites_returns pd ss recorded
              (fun i => point ← site_at pd i;
                        Ok (Scatter3d "text" [(mw + be + 0.5)%float] [float_of_nat i]
                              [(bank_height / 2)%float] [NameText (point_name point)]))
              (length ss)) as (rows & Hrows & _); [exact Hst|exact Hrec|lia| |by eexists].
  intros i s Hs _ Hi. unfold site_at. rewrite Hs. by eexists.
Qed.

Lemma all_cross_sections_returns : ∃ c, all_cross_sections pd (length ss) = Ok c.
Proof.
  unfold all_cross_sections.
  match goal with |- context [for_each ?f ?l] =>
    destruct (for_sites_returns pd ss recorded f (length ss)) as (rows & Hrows & _);
      [exact Hst|exact Hrec|lia| |rewrite Hrows; by eexists] end.
  intros i s Hs _ Hi. unfold site_at. rewrite Hs. by eexists.
Qed.

Lemma build_table_returns : ∃ t, build_table pd (length ss) = Ok t.
Proof.
  unfold build_table.
  match goal with |- context [for_each ?f ?l] =>
    destruct (for_sites_returns pd ss recorded f (length ss)) as (rows & Hrows & _);
      [exact Hst|exact Hrec|lia| |rewrite Hrows; by eexists] end.
  intros i s Hs [_ Hlen] Hi. rewrite (table_rows_ok pd i s Hs); [by eexists|done].
Qed.

Lemma assemble_outcome :
  ss ≠ [] →
  (∃ c, assemble spline (Session (length ss) pd) = Ok c)
  ∨ (assemble spline (Session (length ss) pd) = Raise ValueError
     ∧ 2 ≤ length ss ∧ ∃ i s, ss !! i = Some s ∧ repeated s).
Proof.
  intros Hne.
  assert (Hn : 0 < length ss) by (destruct ss; [done|cbn; lia]).
  unfold assemble. cbn [num_points point_data].
  destruct widths_return as (widths & -> & Hwl). cbn [mbind result_bind].
  destruct (max_returns widths) as [mw ->]; [intros ->; cbn in Hwl; lia|].
  cbn [mbind result_bind].
  destruct deepest_return as (deep & -> & Hdl). cbn [mbind result_bind].
  destruct (max_returns deep) as [md ->]; [intros ->; cbn in Hdl; lia|].
  cbn [mbind result_bind].
  destruct (surfaces_outcome (mw * 0.5)) as [[s ->]|[-> Hbad]]; [|by right].
  destruct markers_returns as [m ->].
  destruct (site_labels_returns mw (mw * 0.5)) as [l ->].
  cbn [mbind result_bind].
  destruct titles_return as (titles & -> & _).
  destruct all_cross_sections_returns as [cells ->].
  destruct build_table_returns as [t ->].
  left. by eexists.
Qed.

End Outcome.

Lemma assemble_returns spline pd ss :
  stored pd ss → Forall interpolable ss → ss ≠ [] →
  ∃ c, assemble spline (Session (length ss) pd) = Ok c.
Proof.
  intros Hst Hok Hne.
  assert (Hrec : Forall recorded ss)
    by (eapply Forall_impl; [exact Hok|apply interpolable_recorded]).
  destruct (assemble_outcome spline pd ss Hst Hrec Hne) as [Hc|(_ & _ & i & s & Hs & Hrep)];
    [done|].
  rewrite Forall_forall in Hok.
  destruct (Hok s) as (_ & _ & [Hle|Hd]); [by eapply list_elem_of_lookup_2| |];
    destruct Hrep as [H3 Hdup]; [lia|congruence].
Qed.

(** With the sites [ss] stored, all of them [interpolable], the visualization
    tab shows the composite: no exception leaves it. *)
Lemma visualization_returns (spline : Scipy.spline_fit) (pd : gmap nat site)
    (ss : list site) :
  stored pd ss → Forall interpolable ss → ss ≠ [] →
  ∃ c, visualization_tab spline (Session (length ss) pd) = Ok (Plots c).
Proof.
  intros Hst Hok Hne.
  assert (Hrec : Forall recorded ss)
    by (eapply Forall_impl; [exact Hok|apply interpolable_recorded]).
  unfold visualization_tab. cbn [num_points point_data].
  destruct (all_depths_recorded_spec pd (seq 0 (length ss))) as (b & Hb & Hiff).
  { intros i Hi. apply elem_of_seq in Hi.
    destruct (stored_site pd ss recorded i Hst Hrec) as (s & Hs & _); [lia|].
    by rewrite Hs. }
  assert (b = true) as ->.
  { apply Hiff. intros i Hi. apply elem_of_seq in Hi.
    destruct (stored_site pd ss recorded i Hst Hrec) as (s & Hs & Hd & _); [lia|].
    by exists s. }
  rewrite Hb. cbn [mbind result_bind].
  destruct (assemble_outcome spline pd ss Hst Hrec Hne) as [[c ->]|(_ & _ & i & s & Hs & Hrep)];
    [by eexists|].
  rewrite Forall_forall in Hok.
  destruct (Hok s) as (_ & _ & [Hle|Hd]); [by eapply list_elem_of_lookup_2| |];
    destruct Hrep as [H3 Hdup]; [lia|congruence].
Qed.

(** ** What a run stores *)

Lemma site_at_insert pd i s : site_at (<[i := s]> pd) i = Ok s.
Proof. unfold site_at. by rewrite lookup_insert_eq. Qed.

Lemma init_site_insert pd i : init_site pd i = <[i := site_or_default pd i]> pd.
Proof.
  unfold init_site, site_or_default. destruct (pd !! i) as [s|] eqn:Hs; cbn; [|done].
  by rewrite insert_id.
Qed.

(** A loop of number inputs returns what the widgets return when every
    pre-filled value is within the bounds, and raises otherwise. *)
Lemma number_inputs_eq (entered : nat → option float) (lo : float) (hi : option float)
    (value : nat → float) (js : list nat) :
  for_each (fun j => St.number_input (entered j) lo hi (value j)) js
  = if forallb (fun j => St.float_in_bounds lo hi (value j)) js
    then Ok (map (fun j => widget (entered j) (value j)) js)
    else Raise StreamlitAPIException.
Proof.
  induction js as [|j js IH]; [done|]. cbn [for_each forallb map].
  rewrite IH. unfold St.number_input.
  destruct (St.float_in_bounds lo hi (value j)); cbn [mbind result_bind andb]; [|done].
  by destruct (forallb _ js).
Qed.

(** One site tab, by cases: with every pre-filled value within its bounds
    the tab returns, re-running exactly when the count entered is not the
    stored one; otherwise a number input raises. *)
Lemma site_tab_cases (w : widgets) (i : nat) (pd : gmap nat site) :
  let s0 := site_or_default pd i in
  let width' := widget (w_width w i) (width s0) in
  let n' := widget (w_num w i) (num_measurements s0) in
  if tab_in_bounds w i pd then
    ∃ o s', site_tab w i pd = Ok o
      ∧ outcome_state o = <[i := s']> pd
      ∧ num_measurements s' = n'
      ∧ point_name s' = widget (w_name w i) (point_name s0)
      ∧ (width s' = width' ∨ width s' = width s0 ∧ (width' =? width s0)%float = true)
      ∧ is_rerun o = negb (n' =? num_measurements s0)%nat
      ∧ (is_rerun o = true → distances s' = [] ∧ depths s' = [])
      ∧ (is_rerun o = false →
           distances s'
           = map (fun j => widget (w_dist w i j) (distance_default s0 width' n' j))
               (seq 0 n')
           ∧ depths s'
             = map (fun j => widget (w_depth w i j) (depth_default s0 j)) (seq 0 n')
           ∧ 2 ≤ n' ≤ 20
           ∧ o = Drawn (outcome_state o)
                   (Some (cross_section_preview width' (distances s') (depths s'))))
  else site_tab w i pd = Raise StreamlitAPIException.
Proof.
  intros s0 width' n'. unfold tab_in_bounds. cbv zeta. fold s0 width' n'.
  unfold site_tab. cbv zeta. rewrite init_site_insert. fold s0.
  rewrite site_at_insert. cbn [mbind result_bind].
  rewrite insert_insert_eq, site_at_insert. cbn [mbind result_bind].
  change (num_measurements (set_point_name _ s0)) with (num_measurements s0).
  change (width (set_point_name _ s0)) with (width s0).
  set (name' := widget (w_name w i) (point_name s0)).
  unfold St.number_input, St.number_input_int.
  destruct (St.float_in_bounds 0.1 None (width s0)) eqn:Hw; [|done].
  destruct (St.int_in_bounds 2 20 (num_measurements s0)) eqn:Hn; [|done].
  cbn [mbind result_bind andb]. fold width' n'.
  unfold update_block. rewrite site_at_insert. cbn [mbind result_bind].
  change (num_measurements (set_point_name _ s0)) with (num_measurements s0).
  change (width (set_point_name _ s0)) with (width s0).
  destruct (negb (n' =? num_measurements s0)) eqn:Hm.
  - rewrite orb_true_r. cbn [orb]. rewrite insert_insert_eq.
    eexists _, _. split; [reflexivity|]. do 3 (split; [done|]). split; [by left|].
    by repeat split.
  - rewrite orb_false_r. cbn [orb]. apply negb_false_iff, Nat.eqb_eq in Hm.
    assert (Hb : 2 ≤ n' ≤ 20).
    { unfold St.int_in_bounds in Hn. apply andb_true_iff in Hn as [H1 H2].
      apply negb_true_iff, Nat.ltb_ge in H1, H2. lia. }
    assert (Hpos : (0 <? n') = true) by (apply Nat.ltb_lt; lia).
    destruct (negb (width' =? width s0)%float) eqn:Hwc.
    + rewrite insert_insert_eq. cbn [mbind result_bind]. rewrite Hpos.
      rewrite site_at_insert. cbn [mbind result_bind].
      unfold distance_inputs, depth_inputs. rewrite !number_inputs_eq.
      change (distance_default (set_num_measurements _ _)) with (distance_default s0).
      change (depth_default (set_num_measurements _ _)) with (depth_default s0).
      destruct (forallb (fun j => St.float_in_bounds 0 (Some width')
                                    (distance_default s0 width' n' j)) (seq 0 n'));
        [|done].
      cbn [mbind result_bind andb].
      destruct (forallb (fun j => St.float_in_bounds 0 (Some 10%float)
                                    (depth_default s0 j)) (seq 0 n')); [|done].
      cbn [mbind result_bind].
      rewrite insert_insert_eq.
      eexists _, _. split; [reflexivity|]. do 3 (split; [done|]). split; [by left|].
      do 2 (split; [done|]). intros _. by repeat (split; [done|]).
    + cbn [mbind result_bind]. rewrite Hpos.
      rewrite site_at_insert. cbn [mbind result_bind].
      unfold distance_inputs, depth_inputs. rewrite !number_inputs_eq.
      change (distance_default (set_point_name _ _)) with (distance_default s0).
      change (depth_default (set_point_name _ _)) with (depth_default s0).
      destruct (forallb (fun j => St.float_in_bounds 0 (Some width')
                                    (distance_default s0 width' n' j)) (seq 0 n'));
        [|done].
      cbn [mbind result_bind andb].
      destruct (forallb (fun j => St.float_in_bounds 0 (Some 10%float)
                                    (depth_default s0 j)) (seq 0 n')); [|done].
      cbn [mbind result_bind].
      rewrite insert_insert_eq.
      eexists _, _. split; [reflexivity|]. do 3 (split; [done|]).
      split; [right; split; [done|]; by apply negb_false_iff in Hwc|].
      do 2 (split; [done|]). intros _. by repeat (split; [done|]).
Qed.

(** What [site_tab] stores when it returns, and why it raises. *)
Lemma site_tab_spec (w : widgets) (i : nat) (pd : gmap nat site) (o : tab_outcome) :
  let s0 := site_or_default pd i in
  let width' := widget (w_width w i) (width s0) in
  let n' := widget (w_num w i) (num_measurements s0) in
  site_tab w i pd = Ok o →
  tab_in_bounds w i pd = true
  ∧ ∃ s', outcome_state o = <[i := s']> pd
      ∧ num_measurements s' = n'
      ∧ point_name s' = widget (w_name w i) (point_name s0)
      ∧ (width s' = width' ∨ width s' = width s0 ∧ (width' =? width s0)%float = true)
      ∧ is_rerun o = negb (n' =? num_measurements s0)%nat
      ∧ (is_rerun o = true → distances s' = [] ∧ depths s' = [])
      ∧ (is_rerun o = false →
           distances s'
           = map (fun j => widget (w_dist w i j) (distance_default s0 width' n' j))
               (seq 0 n')
           ∧ depths s'
             = map (fun j => widget (w_depth w i j) (depth_default s0 j)) (seq 0 n')
           ∧ 2 ≤ n' ≤ 20
           ∧ o = Drawn (outcome_state o)
                   (Some (cross_section_preview width' (distances s') (depths s')))).
Proof.
  intros s0 width' n' Hrun. pose proof (site_tab_cases w i pd) as Hc. cbv zeta in Hc.
  destruct (tab_in_bounds w i pd); [|rewrite Hrun in Hc; discriminate].
  destruct Hc as (o' & s' & Hrun' & Hc). rewrite Hrun in Hrun'. injection Hrun' as <-.
  split; [done|]. by exists s'.
Qed.

Lemma site_tab_raises (w : widgets) (i : nat) (pd : gmap nat site) (e : exn) :
  site_tab w i pd = Raise e → e = StreamlitAPIException ∧ tab_in_bounds w i pd = false.
Proof.
  intros Hrun. pose proof (site_tab_cases w i pd) as Hc. cbv zeta in Hc.
  destruct (tab_in_bounds w i pd).
  - destruct Hc as (o & s' & Hrun' & _). rewrite Hrun in Hrun'. discriminate.
  - rewrite Hrun in Hc. by injection Hc as ->.
Qed.

Lemma site_tab_other w i pd o j :
  site_tab w i pd = Ok o → j ≠ i → outcome_state o !! j = pd !! j.
Proof.
  intros Hrun Hj. destruct (site_tab_spec w i pd o Hrun) as (_ & s' & Hst & _).
  rewrite Hst. by rewrite lookup_insert_ne.
Qed.

Lemma site_tab_drawn w i pd pd' fig :
  site_tab w i pd = Ok (Drawn pd' fig) →
  ∃ s, pd' !! i = Some s ∧ collected s ∧ is_Some fig.
Proof.
  intros Hrun.
  destruct (site_tab_spec w i pd _ Hrun) as (_ & s' & Hst & Hn & _ & _ & _ & _ & Hd).
  destruct (Hd eq_refl) as (Hds & Hzs & Hb & Ho). cbn [outcome_state] in Hst, Ho.
  exists s'. split; [by rewrite Hst, lookup_insert_eq|]. split.
  - unfold collected. rewrite Hds, Hzs, !length_map, !length_seq, Hn. lia.
  - injection Ho as ->. by eexists.
Qed.

Lemma site_tabs_frame w tabs pd pd' figs j :
  site_tabs w tabs pd = Ok (pd', figs) → j ∉ tabs → pd' !! j = pd !! j.
Proof.
  revert pd figs. induction tabs as [|i r IH]; intros pd figs H Hj.
  - by injection H as <- <-.
  - cbn in H. apply bind_Ok in H as (o & Htab & H).
    assert (Hi : j ≠ i) by (intros ->; apply Hj; by left).
    pose proof (site_tab_other w i pd o j Htab Hi) as Ho.
    destruct o as [pd1 fig|pd1]; cbn [outcome_state] in Ho.
    + apply bind_Ok in H as ([pd2 figs2] & Hrest & [= <- <-]).
      rewrite (IH pd1 figs2 Hrest) by (intros ?; apply Hj; by right). done.
    + by injection H as <- <-.
Qed.

(** When every tab was drawn, every site of the loop holds one distance and
    one depth per measurement, and every tab drew its preview. *)
Lemma site_tabs_drawn w tabs pd pd' figs :
  site_tabs w tabs pd = Ok (pd', Some figs) → NoDup tabs →
  (∀ i, i ∈ tabs → ∃ s, pd' !! i = Some s ∧ collected s)
  ∧ Forall is_Some figs.
Proof.
  revert pd figs. induction tabs as [|i r IH]; intros pd figs H Hnd.
  - injection H as <- <-. split; [|constructor]. intros i Hi. by apply elem_of_nil in Hi.
  - cbn in H. apply bind_Ok in H as ([pd1 fig|pd1] & Htab & H); [|done].
    apply bind_Ok in H as ([pd2 [figs2|]] & Hrest & H); [|done].
    injection H as <- <-. apply NoDup_cons in Hnd as [Hi Hnd].
    destruct (site_tab_drawn w i pd pd1 fig Htab) as (s & Hs & Hc & Hfig).
    destruct (IH pd1 figs2 Hrest Hnd) as [Hall Hfigs]. split.
    + intros j Hj. apply elem_of_cons in Hj as [->|Hj]; [|by apply Hall].
      rewrite (site_tabs_frame w r pd1 pd2 _ i Hrest Hi). by exists s.
    + by constructor.
Qed.

Lemma site_tabs_collected w tabs pd pd' figs :
  site_tabs w tabs pd = Ok (pd', Some figs) → NoDup tabs → Forall is_Some figs →
  ∀ i, i ∈ tabs → ∃ s, pd' !! i = Some s ∧ collected s.
Proof. intros H Hnd _. by destruct (site_tabs_drawn w tabs pd pd' figs H Hnd). Qed.

(** The loop over the tabs raises only at a tab that passes a number input a
    value outside its bounds; the tabs before it were drawn. *)
Lemma site_tabs_raises w a m pd e :
  site_tabs w (seq a m) pd = Raise e →
  e = StreamlitAPIException
  ∧ ∃ i pd1 previews,
      a ≤ i < a + m
      ∧ site_tabs w (seq a (i - a)) pd = Ok (pd1, Some previews)
      ∧ tab_in_bounds w i pd1 = false.
Proof.
  revert a pd. induction m as [|m IH]; intros a pd H; [done|].
  cbn [seq site_tabs] in H.
  destruct (site_tab w a pd) as [[pd1 fig|pd1]|e'] eqn:Htab; cbn [mbind result_bind] in H.
  - destruct (site_tabs w (seq (S a) m) pd1) as [[pd2 figs2]|e'] eqn:Hrest;
      cbn [mbind result_bind] in H; [done|]. injection H as ->.
    destruct (IH (S a) pd1 Hrest) as (-> & i & pd2 & previews & Hi & Hrun & Hb).
    split; [done|]. exists i, pd2, (fig :: previews). split; [lia|]. split; [|done].
    replace (i - a) with (S (i - S a)) by lia. cbn [seq site_tabs].
    rewrite Htab. cbn [mbind result_bind]. rewrite Hrun. done.
  - done.
  - injection H as ->. destruct (site_tab_raises w a pd e Htab) as [-> Hb].
    split; [done|]. exists a, pd, []. split; [lia|]. split; [|done].
    by rewrite Nat.sub_diag.
Qed.

(** ** One run, by cases *)

Lemma num_points_block_cases (n : nat) (st : session) :
  (n ≠ num_points st ∧ num_points_block n st = (Session n ∅, true))
  ∨ (n = num_points st ∧ num_points_block n st = (st, false)).
Proof.
  unfold num_points_block.
  destruct (n =? num_points st) eqn:Hn.
  - right. apply Nat.eqb_eq in Hn. by split.
  - left. apply Nat.eqb_neq in Hn. split; [done|]. cbn.
    rewrite (proj2 (Nat.eqb_neq (num_points st) n)) by done. done.
Qed.

Lemma script_eq (spline : Scipy.spline_fit) (w : widgets) (st : session) :
  let n := widget (w_num_points w) (num_points st) in
  script spline w st
  = if St.int_in_bounds 0 20 (num_points st) then
      if negb (n =? num_points st)%nat then Ok (Session n ∅, Rerunning)
      else if (0 <? num_points st)%nat then
        r ← site_tabs w (seq 0 (num_points st)) (point_data st);
        match r : gmap nat site * option (list (option figure)) with
        | (pd, None) => Ok (Session (num_points st) pd, Rerunning)
        | (pd, Some previews) =>
            v ← visualization_tab spline (Session (num_points st) pd);
            Ok (Session (num_points st) pd, Tabs previews v)
        end
      else Ok (st, NoTabs)
    else Raise StreamlitAPIException.
Proof.
  intros n. unfold script, St.number_input_int.
  destruct (St.int_in_bounds 0 20 (num_points st)); [|done]. cbn [mbind result_bind].
  fold n. destruct (num_points_block_cases n st) as [[Hne ->]|[Heq ->]].
  - apply Nat.eqb_neq in Hne. by rewrite Hne.
  - rewrite Heq at 1. by rewrite Nat.eqb_refl.
Qed.

Lemma stored_list (pd : gmap nat site) (n : nat) :
  (∀ i, i < n → is_Some (pd !! i)) →
  ∃ ss, length ss = n ∧ stored pd ss.
Proof.
  intros Hall.
  exists (map (fun i => default (Site 0 0 EmptyString [] []) (pd !! i)) (seq 0 n)).
  split; [by rewrite length_map, length_seq|].
  intros i s Hs. rewrite list_lookup_fmap in Hs.
  destruct (seq 0 n !! i) as [j|] eqn:Hj; [|done].
  apply lookup_seq in Hj as [-> Hi]. cbn in Hs.
  destruct (Hall i Hi) as [s' Hs']. rewrite Hs' in Hs. cbn in Hs. congruence.
Qed.

(** After the site tabs, the visualization tab shows the plots, or the
    cubic interpolation raises at a site with a repeated distance. *)
Lemma visualization_outcome (spline : Scipy.spline_fit) (st : session) :
  0 < num_points st →
  (∀ i, i < num_points st → ∃ s, point_data st !! i = Some s ∧ collected s) →
  (∃ c ss, visualization_tab spline st = Ok (Plots c)
      ∧ assemble spline st = Ok c
      ∧ length ss = num_points st ∧ stored (point_data st) ss ∧ Forall recorded ss)
  ∨ (visualization_tab spline st = Raise ValueError
     ∧ 2 ≤ num_points st
     ∧ ∃ i s, i < num_points st ∧ point_data st !! i = Some s ∧ repeated s).
Proof.
  intros Hn Hall. destruct st as [n pd]. cbn [num_points point_data] in *.
  unfold visualization_tab. cbn [num_points point_data].
  destruct (all_depths_recorded_spec pd (seq 0 n)) as (b & Hb & Hiff).
  { intros i Hi. apply elem_of_seq in Hi. destruct (Hall i) as (s & -> & _); [lia|done]. }
  rewrite Hb. cbn [mbind result_bind].
  assert (b = true) as ->.
  { apply Hiff. intros i Hi. apply elem_of_seq in Hi.
    destruct (Hall i) as (s & Hs & Hpos & _ & Hz); [lia|].
    exists s. split; [done|]. intros Hnil. rewrite Hnil in Hz. cbn in Hz. lia. }
  destruct (stored_list pd n) as (ss & Hlen & Hst).
  { intros i Hi. destruct (Hall i Hi) as (s & -> & _). done. }
  assert (Hrec : Forall recorded ss).
  { apply Forall_forall. intros s Hs. apply list_elem_of_lookup in Hs as [i Hi].
    pose proof (lookup_lt_Some _ _ _ Hi) as Hlt. rewrite Hlen in Hlt.
    destruct (Hall i Hlt) as (s1 & Hs1 & Hpos & Hd & Hz).
    rewrite (Hst i s Hi) in Hs1. injection Hs1 as <-.
    split; [|lia]. intros Hnil. rewrite Hnil in Hz. cbn in Hz. lia. }
  subst n.
  destruct (assemble_outcome spline pd ss Hst Hrec) as [[c Hc]|(Hc & H2 & i & s & Hs & Hrep)].
  { intros ->. cbn in Hn. lia. }
  - left. exists c, ss. rewrite Hc. done.
  - right. rewrite Hc. split; [done|]. split; [done|]. exists i, s.
    split; [by eapply lookup_lt_Some|]. split; [by apply Hst|done].
Qed.

(** A run that shows the tabs: the number of sites was left as it is, every
    tab was drawn, and every site is collected. *)
Lemma script_tabs spline w st st' previews v :
  script spline w st = Ok (st', Tabs previews v) →
  0 < num_points st
  ∧ ∃ pd, site_tabs w (seq 0 (num_points st)) (point_data st) = Ok (pd, Some previews)
      ∧ st' = Session (num_points st) pd
      ∧ visualization_tab spline st' = Ok v
      ∧ (∀ i, i < num_points st → ∃ s, pd !! i = Some s ∧ collected s)
      ∧ Forall is_Some previews.
Proof.
  rewrite script_eq. destruct (St.int_in_bounds _ _ _); [|done].
  destruct (negb _); [done|].
  destruct (0 <? num_points st) eqn:Hn; [|done]. apply Nat.ltb_lt in Hn. intros H.
  apply bind_Ok in H as ([pd [figs|]] & Htabs & H); [|done].
  apply bind_Ok in H as (v' & Hv & [= <- <- <-]).
  split; [done|]. exists pd. do 3 (split; [done|]).
  destruct (site_tabs_drawn w _ _ _ _ Htabs (NoDup_seq 0 _)) as [Hall Hfigs].
  split; [|done]. intros i Hi. apply Hall, elem_of_seq. lia.
Qed.

Lemma script_collects_every_site spline w st st' previews v :
  script spline w st = Ok (st', Tabs previews v) → Forall is_Some previews →
  ∀ i, i < num_points st' → ∃ s, point_data st' !! i = Some s ∧ collected s.
Proof.
  intros H _. destruct (script_tabs spline w st st' previews v H)
    as (_ & pd & _ & -> & _ & Hall & _). exact Hall.
Qed.

(** ** One site tab, in full *)

(** X1.  One site tab either returns or raises [StreamlitAPIException], and
    it raises exactly when it passes a number input a value outside the
    bounds of that input: the stored width or count or, when no re-run is
    due, a pre-filled distance above the width entered (or a depth above
    10).  When it returns, it asks for a re-run exactly when the number of
    measurements entered differs from the stored one (3 for a site seen for
    the first time), and the re-run leaves the site with the new count and
    empty arrays; otherwise it leaves one distance and one depth per
    measurement.  In both cases the site carries the name entered and no
    other site is touched. *)
Theorem site_tab_reruns_iff_count_changed (w : widgets) (i : nat) (pd : gmap nat site) :
  let s0 := site_or_default pd i in
  let n' := widget (w_num w i) (num_measurements s0) in
  if tab_in_bounds w i pd then
    ∃ o s', site_tab w i pd = Ok o
      ∧ (is_rerun o = true ↔ n' ≠ num_measurements s0)
      ∧ outcome_state o !! i = Some s'
      ∧ (∀ j, j ≠ i → outcome_state o !! j = pd !! j)
      ∧ num_measurements s' = n'
      ∧ point_name s' = widget (w_name w i) (point_name s0)
      ∧ (is_rerun o = true → distances s' = [] ∧ depths s' = [])
      ∧ (is_rerun o = false → collected s')
  else site_tab w i pd = Raise StreamlitAPIException.
Proof.
  intros s0 n'. pose proof (site_tab_cases w i pd) as Hc. cbv zeta in Hc.
  fold s0 in Hc. fold n' in Hc.
  destruct (tab_in_bounds w i pd); [|exact Hc].
  destruct Hc as (o & s' & Hrun & Hst & Hn & Hname & _ & Hre & Hr & Hd).
  exists o, s'. split; [done|]. split.
  { rewrite Hre, negb_true_iff. apply Nat.eqb_neq. }
  split; [by rewrite Hst, lookup_insert_eq|].
  split; [by intros j Hj; rewrite Hst, lookup_insert_ne|].
  do 3 (split; [done|]).
  intros Ho. destruct (Hd Ho) as (Hds & Hzs & Hb & _). unfold collected.
  rewrite Hds, Hzs, !length_map, !length_seq, Hn. lia.
Qed.

Lemma shrunk_width_stops_the_tab :
  let before := Site 2 3 "Ford" [0; 1; 2]%float [0; 0.5; 0]%float in
  let after := Site 1 3 "Ford" [0; 1; 2]%float [0; 0.5; 0]%float in
  (∃ o, site_tab untouched 0 (<[0 := before]> ∅) = Ok o ∧ is_rerun o = false)
  ∧ site_tab untouched 0 (<[0 := after]> ∅) = Raise StreamlitAPIException.
Proof.
  intros before after. split.
  - pose proof (site_tab_reruns_iff_count_changed untouched 0 (<[0 := before]> ∅)) as H.
    cbv zeta in H.
    assert (Hb : tab_in_bounds untouched 0 (<[0 := before]> ∅) = true)
      by (vm_compute; reflexivity).
    rewrite Hb in H. destruct H as (o & s' & Hrun & Hre & _).
    exists o. split; [exact Hrun|]. destruct (is_rerun o); [|reflexivity].
    by destruct (proj1 Hre eq_refl).
  - pose proof (site_tab_reruns_iff_count_changed untouched 0 (<[0 := after]> ∅)) as H.
    cbv zeta in H.
    assert (Hb : tab_in_bounds untouched 0 (<[0 := after]> ∅) = false)
      by (vm_compute; reflexivity).
    rewrite Hb in H. exact H.
Defined.

(** ** A run with no widget touched *)

Lemma map_seq_nth (l : list float) (f : nat → float) :
  (∀ j, j < length l → f j = nth j l nan) → map f (seq 0 (length l)) = l.
Proof.
  intros Hf. apply list_eq. intros j. rewrite list_lookup_fmap.
  destruct (l !! j) as [a|] eqn:Hj.
  - assert (Hlt : j < length l) by (by eapply lookup_lt_Some).
    rewrite lookup_seq_lt by done. cbn [fmap option_fmap option_map Nat.add].
    rewrite Hf by done. f_equal. by apply nth_lookup_Some.
  - rewrite lookup_seq_ge; [done|]. by apply lookup_ge_None.
Qed.

Lemma forallb_seq_nth (P : float → bool) (l : list float) (f : nat → float) :
  (∀ j, j < length l → f j = nth j l nan) →
  forallb P l = true → forallb (fun j => P (f j)) (seq 0 (length l)) = true.
Proof.
  intros Hf Hl. apply forallb_forall. intros j Hj. apply in_seq in Hj.
  rewrite Hf by lia. apply (proj1 (forallb_forall P l) Hl). apply nth_In. lia.
Qed.

Lemma tab_in_bounds_untouched (pd : gmap nat site) (i : nat) (s : site) :
  pd !! i = Some s → collected s → within_form_bounds s = true →
  tab_in_bounds untouched i pd = true.
Proof.
  intros Hs (Hn & Hd & Hz) Hb. unfold within_form_bounds in Hb.
  apply andb_true_iff in Hb as [Hb Hzs]. apply andb_true_iff in Hb as [Hb Hds].
  assert (Hs0 : site_or_default pd i = s) by (unfold site_or_default; by rewrite Hs).
  unfold tab_in_bounds. rewrite Hs0.
  change (widget (w_width untouched i) (width s)) with (width s).
  change (widget (w_num untouched i) (num_measurements s)) with (num_measurements s).
  rewrite Hb, Nat.eqb_refl.
  cbn [andb negb orb]. apply andb_true_iff. split.
  - rewrite <- Hd. apply (forallb_seq_nth (St.float_in_bounds 0 (Some (width s))));
      [|done]. intros j Hj. unfold distance_default.
    apply Nat.ltb_lt in Hj. by rewrite Hj.
  - rewrite <- Hz. apply (forallb_seq_nth (St.float_in_bounds 0 (Some 10%float)));
      [|done]. intros j Hj. unfold depth_default.
    apply Nat.ltb_lt in Hj. by rewrite Hj.
Qed.

Lemma site_tab_untouched (pd : gmap nat site) (i : nat) (s : site) :
  pd !! i = Some s → collected s → within_form_bounds s = true →
  site_tab untouched i pd = Ok (Drawn pd (stored_preview pd i)).
Proof.
  intros Hs Hc Hb. pose proof (site_tab_cases untouched i pd) as H. cbv zeta in H.
  rewrite (tab_in_bounds_untouched pd i s Hs Hc Hb) in H.
  assert (Hs0 : site_or_default pd i = s) by (unfold site_or_default; by rewrite Hs).
  rewrite Hs0 in H.
  change (widget (w_width untouched i) (width s)) with (width s) in H.
  change (widget (w_num untouched i) (num_measurements s)) with (num_measurements s) in H.
  change (widget (w_name untouched i) (point_name s)) with (point_name s) in H.
  destruct H as (o & s' & Hrun & Hst & Hn & Hname & Hw & Hre & _ & Hd).
  rewrite Nat.eqb_refl in Hre. destruct (Hd Hre) as (Hds & Hzs & _ & Ho).
  destruct Hc as (_ & Hld & Hlz).
  assert (Hds' : distances s' = distances s).
  { rewrite Hds, <- Hld. apply map_seq_nth. intros j Hj. unfold distance_default.
    apply Nat.ltb_lt in Hj. by rewrite Hj. }
  assert (Hzs' : depths s' = depths s).
  { rewrite Hzs, <- Hlz. apply map_seq_nth. intros j Hj. unfold depth_default.
    apply Nat.ltb_lt in Hj. by rewrite Hj. }
  assert (Hw' : width s' = width s) by (by destruct Hw as [?|[? _]]).
  assert (s' = s) as ->.
  { clear -Hn Hname Hds' Hzs' Hw'. destruct s, s'. cbn in *. by subst. }
  rewrite Hrun, Ho, Hst, (insert_id pd i s Hs). unfold stored_preview. by rewrite Hs.
Qed.

Lemma site_tabs_untouched (pd : gmap nat site) (tabs : list nat) :
  (∀ i, i ∈ tabs → ∃ s, pd !! i = Some s ∧ collected s ∧ within_form_bounds s = true) →
  site_tabs untouched tabs pd = Ok (pd, Some (map (stored_preview pd) tabs)).
Proof.
  induction tabs as [|i r IH]; intros Hall; [done|].
  destruct (Hall i) as (s & Hs & Hc & Hb); [left|].
  cbn [site_tabs]. rewrite (site_tab_untouched pd i s Hs Hc Hb). cbn [mbind result_bind].
  rewrite IH by (intros j Hj; apply Hall; by right). done.
Qed.

(** X2.  When every stored site holds one distance and one depth per
    measurement, all within the bounds of the form (the distances within
    [[0, width]]), at most 20 sites are stored and the user touches no
    widget, a run leaves the session state as it was and draws each preview
    from the stored values: the inputs are pre-filled with what was
    stored. *)
Theorem untouched_rerun_changes_nothing (spline : Scipy.spline_fit) (st : session) :
  num_points st ≤ 20 →
  (∀ i, i < num_points st →
     ∃ s, point_data st !! i = Some s ∧ collected s ∧ within_form_bounds s = true) →
  script spline untouched st
  = if (0 <? num_points st)%nat
    then v ← visualization_tab spline st;
         Ok (st, Tabs (map (stored_preview (point_data st)) (seq 0 (num_points st))) v)
    else Ok (st, NoTabs).
Proof.
  intros Hn Hall. rewrite script_eq.
  cbn [untouched w_num_points widget default]. rewrite Nat.eqb_refl. cbn [negb].
  assert (Hb : St.int_in_bounds 0 20 (num_points st) = true).
  { unfold St.int_in_bounds. apply andb_true_iff.
    split; apply negb_true_iff, Nat.ltb_ge; lia. }
  rewrite Hb. destruct (0 <? num_points st); [|done].
  rewrite site_tabs_untouched.
  - cbn [mbind result_bind]. by destruct st.
  - intros i Hi. apply Hall. apply elem_of_seq in Hi. lia.
Qed.

Lemma untouched_rerun_one_site :
  let st := Session 1 (<[0 := Site 2 3 "Ford" [0; 1; 2]%float [0; 0.5; 0]%float]> ∅) in
  script no_spline untouched st
  = (v ← visualization_tab no_spline st;
     Ok (st, Tabs [stored_preview (point_data st) 0] v)).
Proof.
  intros st. apply (untouched_rerun_changes_nothing no_spline st); [cbn; lia|].
  intros [|i] Hi; [|cbn in Hi; lia].
  eexists. split; [reflexivity|]. split; [|vm_compute; reflexivity].
  unfold collected. cbn. lia.
Defined.

(** ** What a run can raise, and when it shows the plots *)

Lemma one_site_lookup (a : site) (P : site → Prop) :
  P a → ∀ j s, (<[0 := a]> ∅ : gmap nat site) !! j = Some s → P s.
Proof.
  intros Ha j s Hs. apply lookup_insert_Some in Hs as [[_ <-]|[_ Hs]]; [done|].
  by rewrite lookup_empty in Hs.
Qed.

Lemma two_sites_lookup (a b : site) (P : site → Prop) :
  P a → P b → ∀ j s, (<[1 := b]> (<[0 := a]> ∅) : gmap nat site) !! j = Some s → P s.
Proof.
  intros Ha Hb j s Hs. apply lookup_insert_Some in Hs as [[_ <-]|[_ Hs]]; [done|].
  by apply (one_site_lookup a P Ha j).
Qed.

Lemma two_sites_stored (a b : site) : stored (<[1 := b]> (<[0 := a]> ∅)) [a; b].
Proof. intros [|[|i]] s Hs; simplify_eq/=; reflexivity. Qed.

(** X3.  A run raises only in two ways.  Either a number input refuses the
    value it is pre-filled with ([StreamlitAPIException]): the stored number
    of sites is above 20, or some tab, reached after the tabs before it were
    drawn, passes an input a value outside its bounds.  Or the cubic
    interpolation raises [ValueError]: then the study has at least two sites,
    every site tab was drawn, and one of the sites has more than three
    distances with two of them equal. *)
Theorem script_raises_only_from_an_input_or_the_spline (spline : Scipy.spline_fit)
    (w : widgets) (st : session) (e : exn) :
  script spline w st = Raise e →
  (e = StreamlitAPIException
   ∧ (St.int_in_bounds 0 20 (num_points st) = false
      ∨ ∃ i pd1 previews,
          i < num_points st
          ∧ site_tabs w (seq 0 i) (point_data st) = Ok (pd1, Some previews)
          ∧ tab_in_bounds w i pd1 = false))
  ∨ (e = ValueError
     ∧ 2 ≤ num_points st
     ∧ ∃ pd' previews i s,
         site_tabs w (seq 0 (num_points st)) (point_data st) = Ok (pd', Some previews)
         ∧ i < num_points st ∧ pd' !! i = Some s ∧ repeated s).
Proof.
  rewrite script_eq. destruct (St.int_in_bounds 0 20 (num_points st)) eqn:Hb.
  2:{ intros [= <-]. left. split; [done|by left]. }
  destruct (negb _); [done|].
  destruct (0 <? num_points st) eqn:Hn; [|done]. apply Nat.ltb_lt in Hn.
  destruct (site_tabs w (seq 0 (num_points st)) (point_data st))
    as [[pd' [previews|]]|e'] eqn:Htabs; cbn [mbind result_bind]; [|done|].
  - destruct (site_tabs_drawn w _ _ _ _ Htabs (NoDup_seq 0 _)) as [Hall _].
    destruct (visualization_outcome spline (Session (num_points st) pd') Hn)
      as [(c & ss & -> & _)|(-> & H2 & i & s & Hi & Hs & Hrep)]; [|done|].
    { cbn [num_points point_data]. intros i Hi. apply Hall, elem_of_seq. lia. }
    cbn [mbind result_bind]. intros [= <-]. right. split; [done|]. split; [done|].
    by exists pd', previews, i, s.
  - intros [= <-].
    destruct (site_tabs_raises w 0 (num_points st) (point_data st) e' Htabs)
      as (-> & i & pd1 & previews & Hi & Hrun & Hbad).
    left. split; [done|]. right. exists i, pd1, previews.
    rewrite Nat.sub_0_r in Hrun. split; [lia|done].
Qed.

Lemma runs_stopped_by_the_spline_and_by_an_input :
  let a := Site 2 4 "Weir" [0; 1; 1; 2]%float [0; 0.5; 0.6; 0]%float in
  let b := Site 3 2 "Mouth" [0; 3]%float [0.2; 0.1]%float in
  let narrow := Site 1 3 "Ford" [0; 1; 2]%float [0; 0.5; 0]%float in
  (script no_spline untouched (Session 2 (<[1 := b]> (<[0 := a]> ∅))) = Raise ValueError
   ∧ ∃ pd' previews i s,
       site_tabs untouched (seq 0 2) (<[1 := b]> (<[0 := a]> ∅)) = Ok (pd', Some previews)
       ∧ i < 2 ∧ pd' !! i = Some s ∧ repeated s)
  ∧ (script no_spline untouched (Session 1 (<[0 := narrow]> ∅))
     = Raise StreamlitAPIException
     ∧ tab_in_bounds untouched 0 (<[0 := narrow]> ∅) = false).
Proof.
  intros a b narrow. split.
  - assert (Hrun : script no_spline untouched (Session 2 (<[1 := b]> (<[0 := a]> ∅)))
                   = Raise ValueError) by (vm_compute; reflexivity).
    split; [exact Hrun|].
    destruct (script_raises_only_from_an_input_or_the_spline no_spline untouched _ _ Hrun)
      as [[He _]|(_ & _ & H)]; [discriminate He|exact H].
  - assert (Hrun : script no_spline untouched (Session 1 (<[0 := narrow]> ∅))
                   = Raise StreamlitAPIException) by (vm_compute; reflexivity).
    split; [exact Hrun|].
    destruct (script_raises_only_from_an_input_or_the_spline no_spline untouched _ _ Hrun)
      as [[_ [Hb|(i & pd1 & previews & Hi & Htabs & Hbad)]]|[He _]];
      [discriminate Hb| |discriminate He].
    cbn in Hi. assert (i = 0) as -> by lia. cbn in Htabs. by injection Htabs as <- _.
Defined.

(** X4.  A run that draws the preview of every site tab never shows the
    placeholder of the visualization tab: every site then holds one distance
    and one depth per measurement, with at least one measurement. *)
Theorem drawn_previews_pass_the_gate (spline : Scipy.spline_fit) (w : widgets)
    (st st' : session) (previews : list (option figure)) (v : view) :
  script spline w st = Ok (st', Tabs previews v) → Forall is_Some previews →
  (∃ c, v = Plots c)
  ∧ ∀ i, i < num_points st' → ∃ s, point_data st' !! i = Some s ∧ collected s.
Proof.
  intros Hrun _.
  destruct (script_tabs spline w st st' previews v Hrun)
    as (Hn & pd & _ & -> & Hv & Hall & _).
  split; [|exact Hall].
  destruct (visualization_outcome spline (Session (num_points st) pd) Hn Hall)
    as [(c & ss & Hc & _)|(Hc & _)]; rewrite Hc in Hv; [|done].
  injection Hv as <-. by exists c.
Qed.

Lemma ford_passes_the_gate :
  let st := Session 1 (<[0 := Site 2 3 "Ford" [0; 1; 2]%float [0; 0.5; 0]%float]> ∅) in
  ∃ st' previews c, script no_spline untouched st = Ok (st', Tabs previews (Plots c)).
Proof.
  intros st.
  assert (H : ∃ st' f v, script no_spline untouched st = Ok (st', Tabs [Some f] v))
    by (eexists _, _, _; vm_compute; reflexivity).
  destruct H as (st' & f & v & Hrun).
  destruct (drawn_previews_pass_the_gate no_spline untouched st st' [Some f] v Hrun)
    as [[c Hc] _]; [by repeat constructor|].
  exists st', [Some f], c. by rewrite <- Hc.
Defined.

(** ** Re-runs *)

Lemma widget_idem {A} (e : option A) (v : A) : widget e (widget e v) = widget e v.
Proof. by destruct e. Qed.

Lemma site_tab_stable_after w i pd o :
  site_tab w i pd = Ok o → stable w (outcome_state o) i.
Proof.
  intros Hrun. destruct (site_tab_spec w i pd o Hrun) as (_ & s' & Hst & Hn & _).
  exists s'. rewrite Hst, lookup_insert_eq. split; [done|].
  rewrite Hn. apply widget_idem.
Qed.

Lemma site_tab_stable_draws w i pd o :
  stable w pd i → site_tab w i pd = Ok o → is_rerun o = false.
Proof.
  intros (s & Hs & Hw) Hrun.
  destruct (site_tab_spec w i pd o Hrun) as (_ & s' & _ & _ & _ & _ & Hre & _).
  rewrite Hre.
  assert (Hd : site_or_default pd i = s) by (unfold site_or_default; by rewrite Hs).
  by rewrite Hd, Hw, Nat.eqb_refl.
Qed.

Lemma stable_other w pd pd' j :
  pd' !! j = pd !! j → stable w pd j ↔ stable w pd' j.
Proof. intros H. unfold stable. by rewrite H. Qed.

Lemma site_tabs_seq_rerun w a m pd pd' :
  site_tabs w (seq a m) pd = Ok (pd', None) →
  ∃ i, a ≤ i < a + m ∧ ¬ stable w pd i
    ∧ (∀ j, a ≤ j ≤ i → stable w pd' j)
    ∧ (∀ j, j < a ∨ i < j → pd' !! j = pd !! j).
Proof.
  revert a pd. induction m as [|m IH]; intros a pd H; [done|].
  cbn [seq site_tabs] in H. apply bind_Ok in H as (o & Ho & H).
  destruct o as [pd1 fig|pd1].
  - apply bind_Ok in H as ([pd2 figs2] & Hrest & [= <- Hnone]).
    destruct figs2 as [figs2|]; [done|].
    destruct (IH (S a) pd1 Hrest) as (i & Hi & Hun & Hst & Hfr).
    exists i. split; [lia|]. split.
    + rewrite (stable_other w pd pd1 i); [done|].
      apply (site_tab_other w a pd (Drawn pd1 fig) i Ho). lia.
    + split.
      * intros j Hj. destruct (decide (j = a)) as [->|Hne]; [|apply Hst; lia].
        rewrite <- (stable_other w pd1 pd2 a) by (apply Hfr; lia).
        apply (site_tab_stable_after w a pd (Drawn pd1 fig) Ho).
      * intros j Hj. rewrite Hfr by lia.
        apply (site_tab_other w a pd (Drawn pd1 fig) j Ho). lia.
  - injection H as ->. exists a. split; [lia|]. split.
    + intros Hs. by pose proof (site_tab_stable_draws w a pd (Rerun pd') Hs Ho).
    + split.
      * intros j Hj. replace j with a by lia.
        apply (site_tab_stable_after w a pd (Rerun pd') Ho).
      * intros j Hj. apply (site_tab_other w a pd (Rerun pd') j Ho). lia.
Qed.

Lemma script_rerun_progress spline w st st' k :
  settled w st → (∀ i, i < k → stable w (point_data st) i) →
  script spline w st = Ok (st', Rerunning) →
  settled w st' ∧ num_points st' = num_points st ∧ k < num_points st
  ∧ ∀ i, i < k + 1 → stable w (point_data st') i.
Proof.
  intros Hset Hk. rewrite script_eq. destruct (St.int_in_bounds _ _ _); [|done].
  unfold settled in Hset. rewrite Hset, Nat.eqb_refl. cbn [negb].
  destruct (0 <? num_points st); [|done]. intros H.
  apply bind_Ok in H as ([pd [figs|]] & Htabs & H).
  { apply bind_Ok in H as (v & _ & [=]). }
  injection H as <-.
  destruct (site_tabs_seq_rerun w 0 (num_points st) (point_data st) pd Htabs)
    as (i & Hi & Hun & Hst & _).
  split; [done|]. split; [done|].
  assert (k ≤ i). { destruct (decide (k ≤ i)); [done|]. exfalso. apply Hun, Hk. lia. }
  split; [lia|]. intros j Hj. apply Hst. lia.
Qed.

Lemma rerun_loop_settles spline w fuel st k st' p :
  settled w st → (∀ i, i < k → stable w (point_data st) i) →
  num_points st - k ≤ fuel →
  rerun_loop fuel spline w st = Ok (st', p) → p ≠ Rerunning.
Proof.
  revert st k. induction fuel as [|fuel IH]; intros st k Hset Hk Hfuel; cbn [rerun_loop].
  - destruct (script spline w st) as [[st1 p1]|e] eqn:Hrun; [|done].
    destruct p1; [|by intros [= <- <-]..].
    destruct (script_rerun_progress spline w st st1 k Hset Hk Hrun) as (_ & _ & Hlt & _).
    lia.
  - destruct (script spline w st) as [[st1 p1]|e] eqn:Hrun; [|done].
    destruct p1; [|by intros [= <- <-]..].
    destruct (script_rerun_progress spline w st st1 k Hset Hk Hrun)
      as (Hset1 & Hnum & Hlt & Hk1).
    apply (IH st1 (k + 1)); [done|done|lia].
Qed.

(** X5.  The re-runs come to an end: with the widgets held fixed, after at
    most [n + 1] re-runs, [n] being the number of sites entered, the script
    runs to its end (or raises), whatever the session state was. *)
Theorem reruns_come_to_an_end (spline : Scipy.spline_fit) (w : widgets) (st st' : session)
    (p : page) :
  rerun_loop (widget (w_num_points w) (num_points st) + 1) spline w st = Ok (st', p) →
  p ≠ Rerunning.
Proof.
  set (n := widget (w_num_points w) (num_points st)).
  destruct (decide (n = num_points st)) as [Heq|Hne].
  - apply (rerun_loop_settles spline w (n + 1) st 0); [done|intros i Hi; lia|lia].
  - replace (n + 1) with (S n) by lia. cbn [rerun_loop].
    rewrite script_eq. fold n. destruct (St.int_in_bounds _ _ _); [|done].
    apply Nat.eqb_neq in Hne. rewrite Hne. cbn [negb].
    apply (rerun_loop_settles spline w n (Session n ∅) 0).
    + unfold settled. cbn [num_points]. apply widget_idem.
    + intros i Hi. lia.
    + cbn [num_points]. lia.
Qed.

Lemma reruns_end_after_a_count_change :
  ∃ st' p, rerun_loop 3 no_spline (only_count 2) (Session 0 ∅) = Ok (st', p)
    ∧ p ≠ Rerunning.
Proof.
  assert (H : ∃ st' p, rerun_loop 3 no_spline (only_count 2) (Session 0 ∅) = Ok (st', p))
    by (eexists _, _; vm_compute; reflexivity).
  destruct H as (st' & p & H). exists st', p. split; [exact H|].
  exact (reruns_come_to_an_end no_spline (only_count 2) (Session 0 ∅) st' p H).
Defined.

Lemma site_tab_fresh (n i : nat) (pd : gmap nat site) :
  pd !! i = None →
  site_tab (only_count n) i pd
  = Ok (Drawn (<[i := default_site i]> pd)
          (Some (cross_section_preview 1 [0; 0.5; 1]%float [0; 0; 0]%float))).
Proof.
  intros Hnone. pose proof (site_tab_cases (only_count n) i pd) as H. cbv zeta in H.
  assert (Hs0 : site_or_default pd i = Site 1 3 (default_name i) [] [])
    by (unfold site_or_default; by rewrite Hnone).
  assert (Hb : tab_in_bounds (only_count n) i pd = true)
    by (unfold tab_in_bounds; rewrite Hs0; vm_compute; reflexivity).
  rewrite Hb, Hs0 in H.
  destruct H as (o & s' & Hrun & Hst & Hn & Hname & Hw & Hre & _ & Hd).
  destruct (Hd Hre) as (Hds & Hzs & _ & Ho).
  assert (Hw' : width s' = 1%float) by (by destruct Hw as [?|[? _]]).
  assert (s' = default_site i) as ->.
  { clear -Hn Hname Hds Hzs Hw'. destruct s'. cbn in *. by subst. }
  by rewrite Hrun, Ho, Hst.
Qed.

Lemma site_tabs_fresh (n a m : nat) (pd : gmap nat site) :
  (∀ j, a ≤ j → pd !! j = None) →
  ∃ pd', site_tabs (only_count n) (seq a m) pd
         = Ok (pd', Some (map (fun _ => Some (cross_section_preview 1 [0; 0.5; 1]%float
                                               [0; 0; 0]%float)) (seq a m)))
    ∧ ∀ j, pd' !! j = if decide (a ≤ j < a + m) then Some (default_site j) else pd !! j.
Proof.
  revert a pd. induction m as [|m IH]; intros a pd Hnone.
  - exists pd. split; [done|]. intros j. destruct (decide _); [lia|done].
  - cbn [seq site_tabs]. rewrite site_tab_fresh by (apply Hnone; lia).
    cbn [mbind result_bind].
    destruct (IH (S a) (<[a := default_site a]> pd)) as (pd' & Hrun & Hpd').
    { intros j Hj. rewrite lookup_insert_ne by lia. apply Hnone. lia. }
    exists pd'. rewrite Hrun. cbn [mbind result_bind]. split; [done|].
    intros j. rewrite Hpd'. destruct (decide (S a ≤ j < S a + m)) as [H1|H1].
    + destruct (decide _); [done|lia].
    + destruct (decide (j = a)) as [->|Hne].
      * rewrite lookup_insert_eq. destruct (decide _); [done|lia].
      * rewrite lookup_insert_ne by done. destruct (decide _); [lia|done].
Qed.

(** X6.  Entering a new number [n] of sites and nothing else (both [n] and
    the stored number within the 0..20 of the input) forgets every stored
    site; after the re-run the session holds, for each [i < n], the site
    named "Site i+1", 1 m wide, with three points at 0, 0.5 and 1 m of
    depth 0, and nothing else.  For [n > 0] the visualization tab shows the
    plots at once, for [n = 0] no tab is drawn. *)
Theorem new_count_gives_default_sites (spline : Scipy.spline_fit) (st : session) (n : nat) :
  n ≠ num_points st → num_points st ≤ 20 → n ≤ 20 →
  ∃ pd p, rerun_loop 1 spline (only_count n) st = Ok (Session n pd, p)
    ∧ (∀ i, pd !! i = if decide (i < n) then Some (default_site i) else None)
    ∧ (n = 0 → p = NoTabs)
    ∧ (0 < n →
       ∃ c, p = Tabs (map (fun _ => Some (cross_section_preview 1 [0; 0.5; 1]%float
                                            [0; 0; 0]%float)) (seq 0 n))
                  (Plots c)).
Proof.
  intros Hne Hst Hn20. cbn [rerun_loop].
  assert (Hb : ∀ k, k ≤ 20 → St.int_in_bounds 0 20 k = true).
  { intros k Hk. unfold St.int_in_bounds. apply andb_true_iff.
    split; apply negb_true_iff, Nat.ltb_ge; lia. }
  assert (Hw : ∀ k, widget (w_num_points (only_count n)) k = n) by reflexivity.
  rewrite script_eq, (Hb _ Hst), Hw.
  apply Nat.eqb_neq in Hne. rewrite Hne. cbn [negb].
  rewrite script_eq, Hw. cbn [num_points point_data].
  rewrite (Hb _ Hn20), Nat.eqb_refl. cbn [negb].
  destruct (0 <? n) eqn:Hn.
  - apply Nat.ltb_lt in Hn.
    destruct (site_tabs_fresh n 0 n ∅) as (pd' & -> & Hpd'); [done|].
    cbn [mbind result_bind].
    assert (Hlook : ∀ i, pd' !! i = if decide (i < n) then Some (default_site i) else None).
    { intros i. rewrite Hpd'. destruct (decide (0 ≤ i < 0 + n)), (decide (i < n)); try lia; done. }
    destruct (visualization_returns spline pd' (map default_site (seq 0 n))) as [c Hc].
    + intros i s Hs. rewrite list_lookup_fmap in Hs.
      destruct (seq 0 n !! i) as [j|] eqn:Hj; [|done].
      apply lookup_seq in Hj as [-> Hi]. injection Hs as <-.
      rewrite Hlook. by destruct (decide _).
    + apply Forall_forall. intros s Hs. apply list_elem_of_fmap in Hs as (j & -> & _).
      split; [done|]. split; [done|]. left. cbn. lia.
    + destruct n; [lia|done].
    + rewrite length_map, length_seq in Hc. rewrite Hc. cbn [mbind result_bind].
      exists pd', (Tabs (map (fun _ => Some (cross_section_preview 1 [0; 0.5; 1]%float
                                             [0; 0; 0]%float)) (seq 0 n)) (Plots c)).
      split; [done|]. split; [done|]. split; [lia|]. intros _. by exists c.
  - apply Nat.ltb_ge in Hn. exists ∅, NoTabs. split; [done|]. split.
    + intros i. destruct (decide _); [lia|done].
    + split; [done|]. lia.
Qed.

Lemma two_new_sites :
  ∃ pd p, rerun_loop 1 no_spline (only_count 2) (Session 0 ∅) = Ok (Session 2 pd, p)
    ∧ pd !! 1 = Some (default_site 1).
Proof.
  destruct (new_count_gives_default_sites no_spline (Session 0 ∅) 2)
    as (pd & p & Hrun & Hpd & _); [cbn; lia|cbn; lia|lia|].
  exists pd, p. split; [exact Hrun|]. rewrite Hpd. destruct (decide (1 < 2)); [done|lia].
Defined.

(** ** The composite, part by part *)

Lemma for_each_Forall2 {A B} (f : A → result B) (xs : list A) (ys : list B) :
  for_each f xs = Ok ys → Forall2 (fun x y => f x = Ok y) xs ys.
Proof.
  revert ys. induction xs as [|x xs IH]; intros ys H.
  - injection H as <-. constructor.
  - cbn in H. apply bind_Ok in H as (y & Hy & H).
    apply bind_Ok in H as (ys' & Hys & [= <-]). constructor; [done|by apply IH].
Qed.

Lemma for_each_sites_inv {B} (pd : gmap nat site) (ss : list site)
    (f : nat → result B) (g : nat → site → B) (ys : list B) :
  stored pd ss →
  (∀ i s, pd !! i = Some s → ss !! i = Some s → f i = Ok (g i s)) →
  for_each f (seq 0 (length ss)) = Ok ys → ys = imap g ss.
Proof.
  intros Hst Hf H. rewrite (for_each_sites pd ss f g Hst Hf) in H. by injection H.
Qed.

Lemma surface_is_surface nm r c t : surface nm r c = Ok t → is_surface t = true.
Proof.
  destruct c as [[cx cy] cz]. unfold surface. intros H.
  apply bind_Ok in H as (X & _ & H). apply bind_Ok in H as (Y & _ & H).
  apply bind_Ok in H as (Z & _ & [= <-]). done.
Qed.

Lemma ground_sections_shape pd be (xs : list nat) (sections : list (list trace)) :
  Forall2 (fun i sec => (l ← left_bank pd be i; r ← right_bank pd be i;
                         b ← river_bottom pd i; Ok [l; r; b]) = Ok sec) xs sections →
  length (concat sections) = 3 * length xs
  ∧ Forall (fun t => is_surface t = true) (concat sections).
Proof.
  induction 1 as [|i sec rest secs Hsec _ IH]; [split; [reflexivity|constructor]|].
  apply bind_Ok in Hsec as (l & Hl & Hsec). apply bind_Ok in Hsec as (r & Hr & Hsec).
  apply bind_Ok in Hsec as (b & Hb & [= <-]). destruct IH as [IHl IHs].
  cbn [concat length app]. split; [lia|].
  repeat (apply Forall_cons; split); [| | |done].
  - unfold left_bank in Hl. apply bind_Ok in Hl as (? & _ & Hl).
    apply bind_Ok in Hl as (? & _ & Hl). apply bind_Ok in Hl as (? & _ & Hl).
    by eapply surface_is_surface.
  - unfold right_bank in Hr. apply bind_Ok in Hr as (? & _ & Hr).
    apply bind_Ok in Hr as (? & _ & Hr). apply bind_Ok in Hr as (? & _ & Hr).
    by eapply surface_is_surface.
  - unfold river_bottom in Hb. apply bind_Ok in Hb as (? & _ & Hb).
    apply bind_Ok in Hb as (? & _ & Hb). apply bind_Ok in Hb as (? & _ & Hb).
    by eapply surface_is_surface.
Qed.

Lemma ground_shape pd be n g :
  ground pd be n = Ok g → length g = 3 * (n - 1) ∧ Forall (fun t => is_surface t = true) g.
Proof.
  unfold ground. intros H. apply bind_Ok in H as (sections & Hs & [= <-]).
  apply for_each_Forall2 in Hs.
  destruct (ground_sections_shape pd be _ _ Hs) as [Hl Hf].
  by rewrite length_seq in Hl.
Qed.

Lemma surfaces_shape spline pd be n S :
  surfaces spline pd be n = Ok S →
  length S = (if (2 <=? n)%nat then 3 * n - 1 else 0)
  ∧ Forall (fun t => is_surface t = true) S.
Proof.
  unfold surfaces. destruct (2 <=? n) eqn:Hn; [|by intros [= <-]].
  apply Nat.leb_le in Hn. intros H.
  apply bind_Ok in H as (bed & Hbed & H). apply bind_Ok in H as (g & Hg & H).
  apply bind_Ok in H as (water & Hw & [= <-]).
  destruct (ground_shape pd be n g Hg) as [Hlen Hsurf].
  split; [cbn; rewrite length_app; cbn; lia|].
  apply Forall_cons. split.
  - unfold river_bed in Hbed. by apply bind_Ok in Hbed as (? & _ & [= <-]).
  - apply Forall_app. split; [done|]. apply Forall_cons. split; [|done].
    unfold water_surface in Hw. by apply bind_Ok in Hw as (? & _ & [= <-]).
Qed.

Lemma length_concat_imap {A B} (g : nat → A → list B) (h : A → nat) (l : list A) :
  (∀ i a, length (g i a) = h a) → length (concat (imap g l)) = sum_list (map h l).
Proof.
  revert g. induction l as [|a l IH]; intros g Hg; [done|].
  rewrite imap_cons. cbn [concat map sum_list sum_list_with]. rewrite length_app, Hg.
  rewrite IH; [done|]. intros i b. apply Hg.
Qed.

Lemma assemble_parts spline pd ss c :
  stored pd ss → Forall matched ss →
  assemble spline (Session (length ss) pd) = Ok c →
  ∃ S mw,
    Py.max (map width ss) = Ok mw
    ∧ surfaces spline pd (mw * 0.5) (length ss) = Ok S
    ∧ river_profile c = map Trace (S ++ concat (imap site_markers ss) ++ imap (site_label mw) ss)
    ∧ subplot_titles c = map point_name ss
    ∧ cross_sections c = concat (imap cross_section_cell ss)
    ∧ table_data c = concat (imap site_rows ss).
Proof.
  intros Hst Hm Hc. unfold assemble in Hc. cbn [num_points point_data] in Hc.
  apply bind_Ok in Hc as (widths & Hw & Hc). apply bind_Ok in Hc as (mw & Hmw & Hc).
  apply bind_Ok in Hc as (deepest & Hd & Hc). apply bind_Ok in Hc as (mdo & Hmdo & Hc).
  apply bind_Ok in Hc as (S & HS & Hc). apply bind_Ok in Hc as (m & Hmk & Hc).
  apply bind_Ok in Hc as (l & Hl & Hc). apply bind_Ok in Hc as (titles & Ht & Hc).
  apply bind_Ok in Hc as (cells & Hcells & Hc).
  apply bind_Ok in Hc as (table & Htab & [= <-]).
  apply (for_each_sites_inv pd ss _ (fun _ s => width s)) in Hw;
    [|done|by intros i s Hs _; unfold site_at; rewrite Hs].
  apply (for_each_sites_inv pd ss _ (fun _ s => point_name s)) in Ht;
    [|done|by intros i s Hs _; unfold site_at; rewrite Hs].
  apply (for_each_sites_inv pd ss _ (site_label mw)) in Hl;
    [|done|by intros i s Hs _; unfold site_at; rewrite Hs].
  unfold markers in Hmk. apply bind_Ok in Hmk as (per_site & Hps & [= <-]).
  apply (for_each_sites_inv pd ss _ site_markers) in Hps; [|done|].
  2:{ intros i s Hs _. unfold site_at. rewrite Hs. cbn [mbind result_bind].
      unfold site_markers. f_equal. apply map_ext. by intros []. }
  unfold all_cross_sections in Hcells.
  apply bind_Ok in Hcells as (cs & Hcs & [= <-]).
  apply (for_each_sites_inv pd ss _ cross_section_cell) in Hcs;
    [|done|by intros i s Hs _; unfold site_at; rewrite Hs].
  unfold build_table in Htab. apply bind_Ok in Htab as (rows & Hrows & [= <-]).
  apply (for_each_sites_inv pd ss _ site_rows) in Hrows; [|done|].
  2:{ intros i s Hs Hss. apply table_rows_ok; [done|].
      rewrite Forall_forall in Hm. apply Hm. by eapply list_elem_of_lookup_2. }
  rewrite (imap_const width) in Hw. rewrite (imap_const point_name) in Ht. subst.
  exists S, mw. by repeat split.
Qed.

(** X7.  For a study of sites the resampling accepts, the 3D figure holds, in
    this order, the surfaces (the river bed, three ground surfaces per pair
    of consecutive sites and the water surface: [3n - 1] of them for [n >= 2]
    sites, none for one site), then the markers of every site in site order,
    then one name label per site, placed beyond the widest site. *)
Theorem profile_holds_surfaces_markers_labels (spline : Scipy.spline_fit)
    (pd : gmap nat site) (ss : list site) :
  stored pd ss → Forall interpolable ss → ss ≠ [] →
  ∃ c S mw,
    assemble spline (Session (length ss) pd) = Ok c
    ∧ Py.max (map width ss) = Ok mw
    ∧ river_profile c
      = map Trace (S ++ concat (imap site_markers ss) ++ imap (site_label mw) ss)
    ∧ length S = (if (2 <=? length ss)%nat then 3 * length ss - 1 else 0)
    ∧ Forall (fun t => is_surface t = true) S
    ∧ length (river_profile c)
      = length S + sum_list (map (fun s => length (distances s)) ss) + length ss.
Proof.
  intros Hst Hok Hne. destruct (assemble_returns spline pd ss Hst Hok Hne) as [c Hc].
  assert (Hm : Forall matched ss).
  { eapply Forall_impl; [exact Hok|]. intros s (_ & Hlen & _). by unfold matched. }
  destruct (assemble_parts spline pd ss c Hst Hm Hc) as (S & mw & Hmw & HS & Hfig & _).
  destruct (surfaces_shape spline pd _ _ S HS) as [Hlen Hsurf].
  exists c, S, mw. do 5 (split; [done|]).
  rewrite Hfig, length_map, !length_app, length_imap.
  rewrite (length_concat_imap site_markers
             (fun s => length (zip (distances s) (depths s))))
    by (intros; unfold site_markers; by rewrite length_map).
  assert (Hsum : sum_list (map (fun s => length (zip (distances s) (depths s))) ss)
                 = sum_list (map (fun s => length (distances s)) ss)).
  { clear -Hm. induction Hm as [|s ss Hs _ IH]; [done|].
    cbn [map sum_list sum_list_with]. rewrite IH, length_zip. unfold matched in Hs. unfold id. lia. }
  lia.
Qed.

Lemma profile_of_two_sites :
  let a := Site 2 3 "Source" [0; 1; 2]%float [0; 0.5; 0]%float in
  let b := Site 3 2 "Mouth" [0; 3]%float [0.2; 0.1]%float in
  ∃ c, assemble no_spline (Session 2 (<[1 := b]> (<[0 := a]> ∅))) = Ok c
    ∧ length (river_profile c) = 12.
Proof.
  intros a b.
  destruct (profile_holds_surfaces_markers_labels no_spline
              (<[1 := b]> (<[0 := a]> ∅)) [a; b])
    as (c & S & mw & Hrun & _ & _ & HS & _ & Hlen).
  - apply two_sites_stored.
  - repeat constructor; cbn; solve [discriminate | left; lia].
  - discriminate.
  - exists c. split; [exact Hrun|]. rewrite Hlen, HS. reflexivity.
Defined.

(** X8.  Whenever a run shows the plots (starting from sites whose arrays
    match in length), the table is not empty, so that the table and the
    download button are shown too; the table holds the rows of the stored
    sites, in site order. *)
Theorem plots_come_with_a_table (spline : Scipy.spline_fit) (w : widgets)
    (st st' : session) (previews : list (option figure)) (c : composite) :
  (∀ j s, point_data st !! j = Some s → matched s) →
  script spline w st = Ok (st', Tabs previews (Plots c)) →
  download_offered c = true
  ∧ ∃ ss, length ss = num_points st' ∧ stored (point_data st') ss
      ∧ table_data c = concat (imap site_rows ss).
Proof.
  intros _ Hrun.
  destruct (script_tabs spline w st st' previews (Plots c) Hrun)
    as (Hn & pd & _ & -> & Hv & Hall & _). cbn [num_points point_data].
  destruct (visualization_outcome spline (Session (num_points st) pd) Hn Hall)
    as [(c' & ss & Hc & Hasm & Hlen & Hst & Hrec)|(Hc & _)]; rewrite Hc in Hv; [|done].
  injection Hv as ->. cbn [num_points point_data] in *.
  assert (Hmss : Forall matched ss).
  { eapply Forall_impl; [exact Hrec|]. by intros s [_ ?]. }
  rewrite <- Hlen in Hasm.
  destruct (assemble_parts spline pd ss c Hst Hmss Hasm) as (_ & _ & _ & _ & _ & _ & _ & Htab).
  split; [|by exists ss].
  unfold download_offered. rewrite Htab.
  destruct ss as [|s0 ss]; [cbn in Hlen; lia|].
  apply Forall_cons in Hrec as [[Hne Hm0] _].
  rewrite imap_cons. cbn [concat]. unfold site_rows at 1.
  destruct (distances s0) as [|d ds]; [|done].
  destruct (depths s0); [done|discriminate].
Qed.

Lemma table_of_the_ford :
  let st := Session 1 (<[0 := Site 2 3 "Ford" [0; 1; 2]%float [0; 0.5; 0]%float]> ∅) in
  ∃ st' previews c, script no_spline untouched st = Ok (st', Tabs previews (Plots c))
    ∧ download_offered c = true.
Proof.
  intros st.
  assert (H : ∃ st' previews c,
            script no_spline untouched st = Ok (st', Tabs previews (Plots c)))
    by (eexists _, _, _; vm_compute; reflexivity).
  destruct H as (st' & previews & c & Hrun). exists st', previews, c.
  split; [exact Hrun|].
  destruct (plots_come_with_a_table no_spline untouched st st' previews c) as [Hd _];
    [|exact Hrun|exact Hd].
  apply one_site_lookup. reflexivity.
Defined.

Lemma cross_section_cell_place i s r c it :
  (r, c, it) ∈ cross_section_cell i s → r = i / 2 + 1 ∧ c = i mod 2 + 1.
Proof.
  unfold cross_section_cell. intros H.
  apply list_elem_of_fmap in H as (it' & [= -> -> ->] & _). done.
Qed.

(** X9.  The "All Cross-Sections" figure places site [i] in row [i // 2 + 1]
    and column [i % 2 + 1]: every cell used lies within the grid of
    [(n + 1) // 2] rows and 2 columns, and no two sites share a cell. *)
Theorem cross_sections_fit_the_grid (pd : gmap nat site) (ss : list site) :
  stored pd ss →
  ∃ cells, all_cross_sections pd (length ss) = Ok cells
    ∧ cells = concat (imap cross_section_cell ss)
    ∧ (∀ r c it, (r, c, it) ∈ cells →
         1 ≤ r ≤ subplot_rows (length ss) ∧ 1 ≤ c ≤ 2)
    ∧ (∀ i j s s' r c it it',
         ss !! i = Some s → ss !! j = Some s' →
         (r, c, it) ∈ cross_section_cell i s → (r, c, it') ∈ cross_section_cell j s' →
         i = j).
Proof.
  intros Hst. exists (concat (imap cross_section_cell ss)). split; [|split; [done|split]].
  - unfold all_cross_sections.
    rewrite (for_each_sites pd ss _ cross_section_cell Hst); [done|].
    intros i s Hs _. unfold site_at. by rewrite Hs.
  - intros r c it Hin. apply list_elem_of_In, in_concat in Hin as (cell & Hcell & Hit).
    apply list_elem_of_In in Hcell, Hit.
    apply list_elem_of_lookup in Hcell as [i Hi]. rewrite list_lookup_imap in Hi.
    destruct (ss !! i) as [s|] eqn:Hs; [|done]. injection Hi as <-.
    apply lookup_lt_Some in Hs.
    apply cross_section_cell_place in Hit as [-> ->]. unfold subplot_rows.
    pose proof (Nat.mod_upper_bound i 2).
    pose proof (Nat.div_mod_eq i 2). pose proof (Nat.div_mod_eq (length ss + 1) 2).
    pose proof (Nat.mod_upper_bound (length ss + 1) 2). lia.
  - intros i j s s' r c it it' _ _ Hi Hj.
    apply cross_section_cell_place in Hi as [-> ->].
    apply cross_section_cell_place in Hj as [Hr Hc].
    pose proof (Nat.div_mod_eq i 2). pose proof (Nat.div_mod_eq j 2). lia.
Qed.

Lemma two_cells_in_one_row :
  let a := Site 2 3 "Source" [0; 1; 2]%float [0; 0.5; 0]%float in
  let b := Site 3 2 "Mouth" [0; 3]%float [0.2; 0.1]%float in
  ∃ cells, all_cross_sections (<[1 := b]> (<[0 := a]> ∅)) 2 = Ok cells
    ∧ ∀ r c it, (r, c, it) ∈ cells → 1 ≤ r ≤ 1 ∧ 1 ≤ c ≤ 2.
Proof.
  intros a b.
  destruct (cross_sections_fit_the_grid (<[1 := b]> (<[0 := a]> ∅)) [a; b])
    as (cells & Hrun & _ & Hgrid & _); [apply two_sites_stored|].
  exists cells. split; [exact Hrun|exact Hgrid].
Defined.

(** ** The surfaces between and over the sites *)

(** X10.  The water surface lies over the river bed: both surfaces have the
    same [X] and [Y] grids, one row per site with 30 positions from 0 to the
    site's width at [y = i]; the water is at elevation 0 everywhere, and the
    bed has 30 elevations per site. *)
Theorem water_surface_lies_over_the_bed (spline : Scipy.spline_fit) (pd : gmap nat site)
    (ss : list site) :
  stored pd ss → Forall interpolable ss →
  ∃ X Y Z,
    river_bed spline pd (length ss) = Ok (Surface "River Bed" X Y Z)
    ∧ water_surface pd (length ss)
      = Ok (Surface "Water Surface" X Y (replicate (length ss) (replicate 30 0%float)))
    ∧ X = map (fun s => Np.linspace 0 (width s) 30) ss
    ∧ Y = imap (fun i _ => replicate 30 (float_of_nat i)) ss
    ∧ length Z = length ss ∧ Forall (fun row => length row = 30) Z.
Proof.
  intros Hst Hok.
  set (zs := fun s : site => match interpolate_site spline s with
                             | Ok xz => xz.2 | Raise _ => [] end).
  assert (Hbed : for_each (fun i => point ← site_at pd i;
                                    xz ← interpolate_site spline point;
                                    Ok (xz.1, repeat (float_of_nat i) num_interp_points, xz.2))
                   (seq 0 (length ss))
                 = Ok (imap (fun i s => (Np.linspace 0 (width s) 30,
                                         replicate 30 (float_of_nat i), zs s)) ss)).
  { apply (for_each_sites pd ss); [done|]. intros i s Hs Hss. unfold site_at. rewrite Hs.
    cbn [mbind result_bind].
    assert (Hi : interpolable s).
    { rewrite Forall_forall in Hok. apply Hok. by eapply list_elem_of_lookup_2. }
    destruct Hi as (Hne & Hlen & Hd).
    destruct (interpolate_site_returns spline s Hlen Hne) as (xs & zs' & Hrun).
    { destruct Hd as [Hd|Hd]; [by left|right; by apply pairwise_distinct_distinct]. }
    unfold zs. rewrite Hrun. cbn [mbind result_bind fst snd].
    assert (Hxs : xs = Np.linspace 0 (width s) 30).
    { revert Hrun. unfold interpolate_site. destruct (2 <=? _); intros H;
        apply bind_Ok in H as (? & _ & [= <- _]); done. }
    by rewrite Hxs. }
  assert (Hwater : for_each (fun i => point ← site_at pd i;
                               Ok (Np.linspace 0 (width point) num_interp_points,
                                   repeat (float_of_nat i) num_interp_points,
                                   repeat 0%float num_interp_points))
                     (seq 0 (length ss))
                   = Ok (imap (fun i s => (Np.linspace 0 (width s) 30,
                                           replicate 30 (float_of_nat i),
                                           replicate 30 0%float)) ss)).
  { apply (for_each_sites pd ss); [done|]. intros i s Hs Hss. unfold site_at. by rewrite Hs. }
  unfold river_bed, water_surface. rewrite Hbed, Hwater. cbn [mbind result_bind].
  eexists _, _, _. split; [reflexivity|].
  assert (HX : ∀ (h : nat → site → list float),
            (imap (fun i s => (Np.linspace 0 (width s) 30,
                               replicate 30 (float_of_nat i), h i s)) ss).*1.*1
            = map (fun s => Np.linspace 0 (width s) 30) ss).
  { intros h. apply list_eq. intros i.
    rewrite !list_lookup_fmap, list_lookup_imap. by destruct (ss !! i). }
  assert (HY : ∀ (h : nat → site → list float),
            (imap (fun i s => (Np.linspace 0 (width s) 30,
                               replicate 30 (float_of_nat i), h i s)) ss).*1.*2
            = imap (fun i _ => replicate 30 (float_of_nat i)) ss).
  { intros h. apply list_eq. intros i.
    rewrite !list_lookup_fmap, !list_lookup_imap. by destruct (ss !! i). }
  split.
  - f_equal. rewrite (HX (fun _ s => zs s)), (HY (fun _ s => zs s)).
    rewrite (HX (fun _ _ => replicate 30 0%float)), (HY (fun _ _ => replicate 30 0%float)).
    f_equal. apply list_eq. intros i.
    rewrite list_lookup_fmap, list_lookup_imap.
    destruct (ss !! i) as [s|] eqn:Hs; cbn.
    + rewrite lookup_replicate_2; [done|]. by eapply lookup_lt_Some.
    + symmetry. apply lookup_replicate_None. by apply lookup_ge_None.
  - split; [apply (HX (fun _ s => zs s))|]. split; [apply (HY (fun _ s => zs s))|].
    split; [by rewrite length_fmap, length_imap|].
    apply Forall_forall. intros row Hrow.
    apply list_elem_of_fmap in Hrow as ([[x y] z] & -> & Hin).
    apply list_elem_of_lookup in Hin as [i Hi]. rewrite list_lookup_imap in Hi.
    destruct (ss !! i) as [s|] eqn:Hs; [|done]. injection Hi as _ _ <-. cbn.
    assert (Hint : interpolable s).
    { rewrite Forall_forall in Hok. apply Hok. by eapply list_elem_of_lookup_2. }
    destruct Hint as (Hne & Hlen & Hd).
    destruct (interpolate_site_returns spline s Hlen Hne) as (xs & zs' & Hrun).
    { destruct Hd as [Hd|Hd]; [by left|right; by apply pairwise_distinct_distinct]. }
    unfold zs. rewrite Hrun. cbn.
    by destruct (interpolate_site_shape spline s xs zs' Hrun) as (_ & Hz & _).
Qed.

Lemma water_over_two_sites :
  let a := Site 2 3 "Source" [0; 1; 2]%float [0; 0.5; 0]%float in
  let b := Site 3 2 "Mouth" [0; 3]%float [0.2; 0.1]%float in
  let pd : gmap nat site := <[1 := b]> (<[0 := a]> ∅) in
  ∃ X Y Z, river_bed no_spline pd 2 = Ok (Surface "River Bed" X Y Z)
    ∧ water_surface pd 2
      = Ok (Surface "Water Surface" X Y (replicate 2 (replicate 30 0%float))).
Proof.
  intros a b pd.
  destruct (water_surface_lies_over_the_bed no_spline pd [a; b])
    as (X & Y & Z & Hbed & Hwater & _).
  - apply two_sites_stored.
  - repeat constructor; cbn; solve [discriminate | left; lia].
  - exists X, Y, Z. split; [exact Hbed|exact Hwater].
Defined.

Lemma binary_round_aux_opp prec emax s m e l :
  binary_round_aux prec emax (negb s) m e l = SFopp (binary_round_aux prec emax s m e l).
Proof.
  unfold binary_round_aux.
  destruct (shr_fexp prec emax m e l) as [mrs e'].
  destruct (shr_fexp prec emax _ e' loc_Exact) as [mrs' e''].
  destruct (shr_m mrs') as [|p|p]; [done| |done].
  by destruct (_ <=? _)%Z.
Qed.

Lemma opp_div (x y : float) : (- x / y = - (x / y))%float.
Proof.
  apply Prim2SF_inj. rewrite opp_spec, !div_spec, opp_spec.
  destruct (Prim2SF x) as [sx|sx| |sx mx ex], (Prim2SF y) as [sy|sy| |sy my ey];
    cbn [SFopp SF64div SFdiv]; try done; try (by destruct sx, sy).
  destruct (SFdiv_core_binary prec emax (Z.pos mx) ex (Z.pos my) ey) as [[mz ez] lz].
  rewrite <- binary_round_aux_opp. by destruct sx, sy.
Qed.

Lemma sub_opp (x y : float) : (x - - y = x + y)%float.
Proof.
  apply Prim2SF_inj. rewrite sub_spec, add_spec, opp_spec.
  destruct (Prim2SF x) as [sx|sx| |sx mx ex], (Prim2SF y) as [sy|sy| |sy my ey];
    cbn [SFopp SF64sub SFsub SF64add SFadd]; try done; by destruct sx, sy.
Qed.

(** X11.  Between two sites with depths, the right bank is the left bank
    mirrored in the channel: same [Y] and [Z] grids, and each abscissa of
    row [y_frac] is [width_at_y - x] for the left bank's [x], with
    [width_at_y] the width interpolated between the two sites. *)
Theorem right_bank_mirrors_left (pd : gmap nat site) (be : float) (i : nat)
    (curr next : site) :
  pd !! i = Some curr → pd !! (i + 1) = Some next →
  depths curr ≠ [] → depths next ≠ [] →
  ∃ XL XR Y Z,
    left_bank pd be i = Ok (Surface "Left Bank" XL Y Z)
    ∧ right_bank pd be i = Ok (Surface "Right Bank" XR Y Z)
    ∧ XR = zip_with (fun y_frac row =>
                       map (mirror (width curr + (width next - width curr) * y_frac)) row)
             [0; 0.5; 1]%float XL.
Proof.
  intros Hc Hn Hdc Hdn.
  destruct (depths curr) as [|c0 cs] eqn:Hcd; [done|].
  destruct (depths next) as [|n0 ns] eqn:Hnd; [done|].
  unfold left_bank, right_bank, max_depth_section, site_at. rewrite Hc, Hn. cbn.
  rewrite Hcd, Hnd. cbn.
  eexists _, _, _, _. split; [reflexivity|]. split; [reflexivity|].
  unfold mirror. cbn. rewrite !sub_zero_r, !opp_div, !sub_opp. reflexivity.
Qed.

Lemma banks_between_two_sites :
  let a := Site 2 3 "Source" [0; 1; 2]%float [0; 0.5; 0]%float in
  let b := Site 3 2 "Mouth" [0; 3]%float [0.2; 0.1]%float in
  let pd : gmap nat site := <[1 := b]> (<[0 := a]> ∅) in
  ∃ XL XR Y Z,
    left_bank pd 1.5 0 = Ok (Surface "Left Bank" XL Y Z)
    ∧ right_bank pd 1.5 0 = Ok (Surface "Right Bank" XR Y Z)
    ∧ XR = zip_with (fun y_frac row => map (mirror (2 + (3 - 2) * y_frac)) row)
             [0; 0.5; 1]%float XL.
Proof.
  intros a b pd.
  apply (right_bank_mirrors_left pd 1.5 0 a b); [reflexivity|reflexivity|discriminate|discriminate].
Defined.

(** X12.  Between two sites with depths, the three ground surfaces share one
    floor: the lower three columns of both banks and all of the strip under
    the river lie at [-1.2 * max(max depth of the two sites)]; the strip is a
    2 by 10 grid, its rows at [y = i] and [y = i + 1] running from 0 to the
    width of the site at that end. *)
Theorem ground_shares_one_floor (pd : gmap nat site) (be : float) (i : nat)
    (curr next : site) :
  pd !! i = Some curr → pd !! (i + 1) = Some next →
  depths curr ≠ [] → depths next ≠ [] →
  ∃ mc mn XL YL ZL XR YR ZR XB YB ZB,
    Py.max (depths curr) = Ok mc ∧ Py.max (depths next) = Ok mn
    ∧ left_bank pd be i = Ok (Surface "Left Bank" XL YL ZL)
    ∧ right_bank pd be i = Ok (Surface "Right Bank" XR YR ZR)
    ∧ river_bottom pd i = Ok (Surface "River Bottom" XB YB ZB)
    ∧ let floor := ((- max2 mc mn) * 1.2)%float in
      Forall (fun j => column j ZL = replicate 3 (Some floor)
                       ∧ column j ZR = replicate 3 (Some floor)) [3; 4; 5]
      ∧ ZB = replicate 2 (replicate 10 floor)
      ∧ YB = map (fun y_frac => replicate 10 (float_of_nat i + y_frac)%float)
               [0; 1]%float
      ∧ XB = map (fun y_frac =>
                    map (fun j => (float_of_nat j / 9
                                   * (width curr + (width next - width curr) * y_frac))%float)
                        (seq 0 10))
               [0; 1]%float.
Proof.
  intros Hc Hn Hdc Hdn.
  destruct (depths curr) as [|c0 cs] eqn:Hcd; [done|].
  destruct (depths next) as [|n0 ns] eqn:Hnd; [done|].
  exists (max_from c0 cs), (max_from n0 ns).
  unfold left_bank, right_bank, river_bottom, max_depth_section, site_at.
  rewrite Hc, Hn. cbn. rewrite Hcd, Hnd. cbn.
  do 9 eexists. repeat split; try reflexivity. by repeat constructor.
Qed.

Lemma floor_between_two_sites :
  let a := Site 2 3 "Source" [0; 1; 2]%float [0; 0.5; 0]%float in
  let b := Site 3 2 "Mouth" [0; 3]%float [0.2; 0.1]%float in
  let pd : gmap nat site := <[1 := b]> (<[0 := a]> ∅) in
  ∃ XB YB, river_bottom pd 0
           = Ok (Surface "River Bottom" XB YB
                   (replicate 2 (replicate 10 ((- 0.5) * 1.2)%float))).
Proof.
  intros a b pd.
  destruct (ground_shares_one_floor pd 1.5 0 a b)
    as (mc & mn & XL & YL & ZL & XR & YR & ZR & XB & YB & ZB
        & Hmc & Hmn & _ & _ & Hb & _ & HZ & _);
    [reflexivity|reflexivity|discriminate|discriminate|].
  exists XB, YB. rewrite Hb, HZ. injection Hmc as <-. injection Hmn as <-. reflexivity.
Defined.
